(** * pubmetric: first-author detection and trainee assessment

    A shallow embedding of [pubmetric.py] and [config.py].

    Python [str] values are lists of Unicode code points, dictionaries are
    [gmap]s, the ElementTree of the EFETCH answer is a rose tree, and the
    methods that print or call the E-utilities run in a small
    state-and-exception monad over the log of what was printed and
    requested. *)

From Stdlib Require Import ZArith NArith List Bool Lia String Ascii.
From stdpp Require Import base option list gmap.

Open Scope Z_scope.

(** ** Python values *)

(** A [str] is a sequence of code points. *)
Abbreviation str := (list N).

(** A string literal of the source ([u "LastName"]); the literals of
    [pubmetric.py] are all ASCII. *)
Definition u (s : string) : str := map N_of_ascii (list_ascii_of_string s).
Arguments u : simpl never.

Inductive exn : Type :=
  | IndexError
  | KeyError
  | ValueError
  | TypeError
  | AttributeError.

Inductive result (A : Type) : Type :=
  | Ok (a : A)
  | Raise (e : exn).
Arguments Ok {A} a.
Arguments Raise {A} e.

Definition result_bind {A B} (r : result A) (k : A -> result B) : result B :=
  match r with
  | Ok a => k a
  | Raise e => Raise e
  end.

(** [d[k]] on a dictionary. *)
Definition getitem `{Countable K} {V} (d : gmap K V) (k : K) : result V :=
  match d !! k with
  | Some v => Ok v
  | None => Raise KeyError
  end.

(** [k in d.keys()]. *)
Definition has_key {V} (d : gmap str V) (k : str) : bool :=
  match d !! k with
  | Some _ => true
  | None => false
  end.

(** [l[i]] for an index from the front. *)
Definition item {A} (l : list A) (i : nat) : result A :=
  match l !! i with
  | Some x => Ok x
  | None => Raise IndexError
  end.

(** [l[0]]. *)
Definition first_item {A} (l : list A) : result A := item l 0.

(** ** Built-in string operations *)

(** The code points [str.strip()] removes ([str.isspace]). *)
Definition is_space (c : N) : bool :=
  ((9 <=? c) && (c <=? 13) || (28 <=? c) && (c <=? 32)
   || (c =? 133) || (c =? 160) || (c =? 5760)
   || (8192 <=? c) && (c <=? 8202)
   || (c =? 8232) || (c =? 8233) || (c =? 8239) || (c =? 8287)
   || (c =? 12288))%N.

Fixpoint lstrip (s : str) : str :=
  match s with
  | c :: s' => if is_space c then lstrip s' else s
  | [] => []
  end.

Definition rstrip (s : str) : str := rev (lstrip (rev s)).

Definition str_strip (s : str) : str := rstrip (lstrip s).

Definition is_ascii (c : N) : bool := (c <? 128)%N.

Definition is_ascii_upper (c : N) : bool := ((65 <=? c) && (c <=? 90))%N.

Definition ascii_lower (c : N) : N := if is_ascii_upper c then (c + 32)%N else c.

(** The class [[0-9a-zA-Z]] of the regular expression in [flatten_name]. *)
Definition is_alnum (c : N) : bool :=
  ((48 <=? c) && (c <=? 57) || (97 <=? c) && (c <=? 122)
   || (65 <=? c) && (c <=? 90))%N.

(** [text.encode('ascii', 'ignore').decode('utf-8')]. *)
Definition encode_ascii_ignore (text : str) : str := List.filter is_ascii text.

(** [re.sub('[^0-9a-zA-Z]', '', name)]. *)
Definition re_sub_non_alnum (name : str) : str := List.filter is_alnum name.

Fixpoint startswith (s p : str) {struct p} : bool :=
  match p, s with
  | [], _ => true
  | _ :: _, [] => false
  | c :: p', d :: s' => (c =? d)%N && startswith s' p'
  end.

(** [p in s] on strings: [p] occurs in [s] as a contiguous run. *)
Fixpoint str_in (p s : str) : bool :=
  startswith s p ||
  match s with
  | [] => false
  | _ :: s' => str_in p s'
  end.

(** [s.split(',')]. *)
Fixpoint split_on (sep : N) (s : str) : list str :=
  match s with
  | [] => [[]]
  | c :: s' =>
      if (c =? sep)%N then [] :: split_on sep s'
      else match split_on sep s' with
           | w :: ws => (c :: w) :: ws
           | [] => [[c]]
           end
  end.

(** The parts of the Python runtime that are tables of the Unicode
    Character Database or library parsers: [str.lower], the canonical
    decomposition [unicodedata.normalize('NFD', _)] and [int] on strings. *)
Class Runtime : Type := {
  str_lower : str -> str;
  normalize_NFD : str -> str;
  py_int : str -> result Z
}.

(** ** config.py *)

Definition TOO_MANY_PAPERS : Z := 50.
Definition WITH_INITIAL : bool := true.

(** ** Constants and search tags *)

Definition ATAG : str := u "[Author] ".
Definition LTAG : str := u "[ad] ".

(** ** Name handling *)

Section Names.
Context `{RT : Runtime}.

Definition strip_accents (text : str) : str :=
  encode_ascii_ignore (normalize_NFD text).

Definition flatten_name (name : str) : str :=
  re_sub_non_alnum (strip_accents (str_lower (str_strip name))).

Definition names_match (name1 name2 : str) : bool :=
  bool_decide (flatten_name name1 = flatten_name name2).
End Names.

(** ** The roster *)

(** A cell of the roster as [pandas.read_csv] delivers it: an empty cell is
    the float NaN, a column of numbers holds numbers. *)
Inductive cell : Type :=
  | NaN
  | Str (s : str)
  | Num (n : Z)
  | Bool (b : bool).

(** A row of [infile.itertuples()]; a column the file does not have is an
    attribute the row does not have ([None] here). *)
Record Row : Type := {
  LastName : option cell;
  FirstName : option cell;
  ThesisMentor : option cell;
  Location : option cell
}.

(** [row.LastName] and the like. *)
Definition getattr {A} (field : option A) : result A :=
  match field with
  | Some v => Ok v
  | None => Raise AttributeError
  end.

(** [d[k]] for a key of [trainee_stats] that may not be set yet. *)
Definition getkey {A} (field : option A) : result A :=
  match field with
  | Some v => Ok v
  | None => Raise KeyError
  end.

(** [x.strip()] on a value that need not be a string. *)
Definition cell_strip (x : cell) : result str :=
  match x with
  | Str s => Ok (str_strip s)
  | _ => Raise AttributeError
  end.

(** [x.split(',')] on a value that need not be a string. *)
Definition cell_split (x : cell) : result (list str) :=
  match x with
  | Str s => Ok (split_on 44 s)
  | _ => Raise AttributeError
  end.

(** [pd.isna(x)] on a scalar. *)
Definition pd_isna (x : cell) : bool :=
  match x with
  | NaN => true
  | _ => false
  end.

(** Truth value of a cell in an [if]. *)
Definition cell_truthy (x : cell) : bool :=
  match x with
  | NaN => true
  | Str s => negb (bool_decide (s = []))
  | Num n => negb (n =? 0)
  | Bool b => b
  end.

(** [x + LTAG]: only a string can be concatenated with a string. *)
Definition cell_concat (x : cell) (s : str) : result str :=
  match x with
  | Str t => Ok (t ++ s)
  | _ => Raise TypeError
  end.

Definition format_name (last first : cell) (with_initial : bool) : result str :=
  if with_initial then
    result_bind (cell_strip last) (fun l =>
    result_bind (cell_strip first) (fun f =>
    result_bind (first_item f) (fun c =>
    Ok (l ++ u " " ++ [c]))))
  else cell_strip last.

(** ** The records of the E-utilities *)

(** An element of the XML tree of EFETCH. *)
#[local] Set Warnings "-register-all".
Inductive Element : Type :=
  Elem {
    tag : str;
    attrib : gmap str str;
    text : option str;
    children : list Element
  }.

(** All elements below [e], in document order. *)
Fixpoint descendants (e : Element) : list Element :=
  (fix below (cs : list Element) : list Element :=
     match cs with
     | [] => []
     | c :: cs' => c :: descendants c ++ below cs'
     end) (children e).

(** [e.findall('.//' + t)]. *)
Definition findall (t : str) (e : Element) : list Element :=
  List.filter (fun d => bool_decide (tag d = t)) (descendants e).

(** [e.find('.//' + t)]. *)
Definition find (t : str) (e : Element) : option Element :=
  head (findall t e).

(** An entry of [authors] in an ESUMMARY document. *)
Record AuthorEntry : Type := {
  name : str;
  authtype : str
}.

(** An entry of [articleids] in an ESUMMARY document. *)
Record ArticleId : Type := {
  idtype : str;
  value : str
}.

(** An ESUMMARY document (the [data] of a [PaperSummary]). *)
Record SummaryData : Type := {
  authors : list AuthorEntry;
  pubtype : list str;
  source : str;
  articleids : list ArticleId
}.

(** [resp.json()['result']] of ESUMMARY. *)
Record SummaryResult : Type := {
  uids : list str;
  docs : gmap str SummaryData
}.

(** [result['esearchresult']] of ESEARCH. *)
Record SearchResult : Type := {
  count : str;
  idlist : list str;
  webenv : str;
  querykey : str
}.

(** [resp.json()] of ESEARCH. *)
Record SearchResponse : Type := {
  version : str;
  esearchresult : SearchResult
}.

(** The three E-utilities, by what they answer to a request. *)
Record Service : Type := {
  esearch : str -> SearchResponse;
  esummary : str -> str -> SummaryResult;
  efetch : str -> str -> Element
}.

Definition extract_identifier (articleIds : list ArticleId) (id_type : str)
  : option ArticleId :=
  List.find (fun aid => bool_decide (id_type = idtype aid)) articleIds.

(** ** Printing and requests *)

Inductive Request : Type :=
  | ESEARCH (term : str)
  | ESUMMARY (WebEnv query_key : str)
  | EFETCH (WebEnv query_key : str).

Inductive Line : Type :=
  | PrintRow (row : Row)
  | PrintSearchTerm (search_term : str)
  | PrintVersionWarning
  | PrintFound (n : nat).

(** What a run leaves outside the program: the requests sent to the
    E-utilities and the lines printed, oldest first. *)
Record World : Type := {
  requests : list Request;
  stdout : list Line
}.

Definition M (A : Type) : Type := World -> result A * World.

Definition ret {A} (a : A) : M A := fun w => (Ok a, w).

Definition bind {A B} (m : M A) (k : A -> M B) : M B :=
  fun w =>
    match m w with
    | (Ok a, w') => k a w'
    | (Raise e, w') => (Raise e, w')
    end.

Definition lift {A} (r : result A) : M A := fun w => (r, w).

Definition print (l : Line) : M unit :=
  fun w => (Ok tt, {| requests := requests w; stdout := stdout w ++ [l] |}).

Definition send (r : Request) : M unit :=
  fun w => (Ok tt, {| requests := requests w ++ [r]; stdout := stdout w |}).

(** [try: body except Exception: handler]. *)
Definition try_except {A} (body : result A) (handler : A) : A :=
  match body with
  | Ok a => a
  | Raise _ => handler
  end.

Declare Scope py_scope.
Delimit Scope py_scope with py.
Notation "'let*' x ':=' m 'in' k" := (bind m (fun x => k))
  (at level 10, x pattern, m at level 100, k at level 200) : py_scope.
Notation "'let?' x ':=' r 'in' k" := (result_bind r (fun x => k))
  (at level 10, x pattern, r at level 100, k at level 200) : py_scope.
Open Scope py_scope.

(** ** class PaperSummary *)

Module PaperSummary.

Record t : Type := {
  pmid : str;
  data : SummaryData
}.

Definition is_review (self : t) : bool :=
  bool_decide (u "Review" ∈ pubtype (data self)).

Definition is_first_author `{RT : Runtime} (self : t) (author : str)
  : result bool :=
  let standard_author := flatten_name author in
  let? first := first_item (authors (data self)) in
  let first_listed_author := take (length author) (name first) in
  Ok (bool_decide (flatten_name first_listed_author = standard_author)).

Definition journal_title (self : t) : str := source (data self).

End PaperSummary.

(** ** class PaperAbstract *)

Module PaperAbstract.

Record t : Type := {
  pmid : option str;
  data : Element
}.

(** [{a.tag: a.text.strip() for a in author if a.text}]. *)
Definition author_dict (author : Element) : gmap str str :=
  fold_left
    (fun d a =>
       match text a with
       | Some (c :: s) => <[tag a := str_strip (c :: s)]> d
       | _ => d
       end)
    (children author) ∅.

Definition extract_authorship (self : t) : list (gmap str str) :=
  flat_map
    (fun author =>
       let attribs := attrib author in
       let author_dict := author_dict author in
       if has_key author_dict (u "LastName")
       then [author_dict ∪ attribs]
       else [])
    (findall (u "Author") (data self)).

Section Methods.
Context `{RT : Runtime}.

(** The comprehension
    [[author for author in author_list
      if flatten_name(author['LastName']) in standard_author]]. *)
Fixpoint matching (standard_author : str) (author_list : list (gmap str str))
  : result (list (gmap str str)) :=
  match author_list with
  | [] => Ok []
  | author :: rest =>
      let? last := getitem author (u "LastName") in
      let? found := matching standard_author rest in
      Ok (if str_in (flatten_name last) standard_author
          then author :: found else found)
  end.

Definition is_first_author (self : t) (author : str) : M bool :=
  let standard_author := flatten_name author in
  let author_list := extract_authorship self in
  let* matching_authors := lift (matching standard_author author_list) in
  if negb (length matching_authors =? 1)%nat then
    let* _ := print (PrintFound (length matching_authors)) in
    ret false
  else
    let* first := lift (first_item author_list) in
    let* found := lift (first_item matching_authors) in
    let is_listed_first := bool_decide (first = found) in
    let is_co_first := has_key found (u "EqualContrib") in
    ret (is_listed_first || is_co_first).

End Methods.

End PaperAbstract.

(** ** The statistics of one trainee *)

Module Stats.

(** The dictionary [trainee_stats]; the keys [paper_count], [pmids] and
    [error] are absent until [assess_trainee] sets them. *)
Record t : Type := {
  research_papers : Z;
  first_author_research_papers : Z;
  first_author_journals : list str;
  reviews : Z;
  first_author_reviews : Z;
  paper_count : option str;
  pmids : option (list str);
  error : option str
}.

Definition set_search (st : t) (n : str) (ids : list str) : t :=
  {| research_papers := research_papers st;
     first_author_research_papers := first_author_research_papers st;
     first_author_journals := first_author_journals st;
     reviews := reviews st;
     first_author_reviews := first_author_reviews st;
     paper_count := Some n;
     pmids := Some ids;
     error := error st |}.

Definition set_error (st : t) (msg : str) : t :=
  {| research_papers := research_papers st;
     first_author_research_papers := first_author_research_papers st;
     first_author_journals := first_author_journals st;
     reviews := reviews st;
     first_author_reviews := first_author_reviews st;
     paper_count := paper_count st;
     pmids := pmids st;
     error := Some msg |}.

(** The updates of one pass through the loop of [assess_trainee]. *)
Definition count_paper (st : t) (review first_author : bool) (journal : str)
  : t :=
  if review then
    {| research_papers := research_papers st;
       first_author_research_papers := first_author_research_papers st;
       first_author_journals := first_author_journals st;
       reviews := reviews st + 1;
       first_author_reviews :=
         if first_author then first_author_reviews st + 1
         else first_author_reviews st;
       paper_count := paper_count st;
       pmids := pmids st;
       error := error st |}
  else
    {| research_papers := research_papers st + 1;
       first_author_research_papers :=
         if first_author then first_author_research_papers st + 1
         else first_author_research_papers st;
       first_author_journals :=
         if first_author then first_author_journals st ++ [journal]
         else first_author_journals st;
       reviews := reviews st;
       first_author_reviews := first_author_reviews st;
       paper_count := paper_count st;
       pmids := pmids st;
       error := error st |}.

End Stats.

Definition EMPTY_TRAINEE_STATS : Stats.t :=
  {| Stats.research_papers := 0;
     Stats.first_author_research_papers := 0;
     Stats.first_author_journals := [];
     Stats.reviews := 0;
     Stats.first_author_reviews := 0;
     Stats.paper_count := None;
     Stats.pmids := None;
     Stats.error := None |}.

(** ** class AuthorSearch *)

Module AuthorSearch.

Record t : Type := {
  trainee_stats : Stats.t;
  abstracts : gmap (option str) PaperAbstract.t;
  summaries : gmap str PaperSummary.t;
  paper_content : list SummaryData;
  trainee : str;
  mentor : option str;
  location : option cell;
  search_results : option SearchResult;
  pmids : option (list str)
}.

(** The body of the first [try] of [_parse_trainee_mentor]. *)
Definition parse_mentor (mentor : cell) (with_initial : bool) : result str :=
  let? mentor := cell_split mentor in
  if (1 <? length mentor)%nat then
    let? last := item mentor 0 in
    let? first := item mentor 1 in
    format_name (Str last) (Str first) with_initial
  else first_item mentor.

(** The body of the second [try] of [_parse_trainee_mentor]. *)
Definition parse_location (row : Row) : result (option cell) :=
  let? loc := getattr (Location row) in
  if pd_isna loc then Ok None else Ok (Some loc).

(** [_parse_trainee_mentor]: the trainee, the mentor and the location it
    stores on [self]. *)
Definition _parse_trainee_mentor (row : Row) (with_initial : bool)
  : result (str * option str * option cell) :=
  let? last := getattr (LastName row) in
  let? first := getattr (FirstName row) in
  let? trainee := format_name last first with_initial in
  let? mentor := getattr (ThesisMentor row) in
  let mentor :=
    try_except (let? m := parse_mentor mentor with_initial in Ok (Some m))
               None in
  let location := try_except (parse_location row) None in
  Ok (trainee, mentor, location).

(** [AuthorSearch(row, with_initial)]. *)
Definition __init__ (row : Row) (with_initial : bool) : M t :=
  let* _ := print (PrintRow row) in
  let* (trainee, mentor, location) :=
    lift (_parse_trainee_mentor row with_initial) in
  ret {| trainee_stats := EMPTY_TRAINEE_STATS;
         abstracts := ∅;
         summaries := ∅;
         paper_content := [];
         trainee := trainee;
         mentor := mentor;
         location := location;
         search_results := None;
         pmids := None |}.

(** Assignments to the attributes of [self]. *)

Definition set_search_results (self : t) (found : SearchResult) : t :=
  {| trainee_stats := trainee_stats self;
     abstracts := abstracts self;
     summaries := summaries self;
     paper_content := paper_content self;
     trainee := trainee self;
     mentor := mentor self;
     location := location self;
     search_results := Some found;
     pmids := pmids self |}.

Definition set_summaries (self : t) (ids : list str)
    (stored : gmap str PaperSummary.t) : t :=
  {| trainee_stats := trainee_stats self;
     abstracts := abstracts self;
     summaries := stored;
     paper_content := paper_content self;
     trainee := trainee self;
     mentor := mentor self;
     location := location self;
     search_results := search_results self;
     pmids := Some ids |}.

Definition set_abstracts (self : t)
    (stored : gmap (option str) PaperAbstract.t) : t :=
  {| trainee_stats := trainee_stats self;
     abstracts := stored;
     summaries := summaries self;
     paper_content := paper_content self;
     trainee := trainee self;
     mentor := mentor self;
     location := location self;
     search_results := search_results self;
     pmids := pmids self |}.

Definition set_trainee_stats (self : t) (st : Stats.t) : t :=
  {| trainee_stats := st;
     abstracts := abstracts self;
     summaries := summaries self;
     paper_content := paper_content self;
     trainee := trainee self;
     mentor := mentor self;
     location := location self;
     search_results := search_results self;
     pmids := pmids self |}.

(** [self.paper_content.append(doc)]. *)
Definition append_paper_content (self : t) (doc : SummaryData) : t :=
  {| trainee_stats := trainee_stats self;
     abstracts := abstracts self;
     summaries := summaries self;
     paper_content := paper_content self ++ [doc];
     trainee := trainee self;
     mentor := mentor self;
     location := location self;
     search_results := search_results self;
     pmids := pmids self |}.

Section Methods.
Context `{RT : Runtime} (svc : Service).

(** The search term [search] builds from the trainee, the mentor and the
    location. *)
Definition build_search_term (self : t) : result str :=
  let search_term := trainee self ++ ATAG in
  let search_term :=
    match mentor self with
    | Some (c :: m) => search_term ++ ((c :: m) ++ ATAG)
    | _ => search_term
    end in
  match location self with
  | Some loc =>
      if cell_truthy loc then
        let? tagged := cell_concat loc LTAG in
        Ok (search_term ++ tagged)
      else Ok search_term
  | None => Ok search_term
  end.

(** [self.search()]: the answer of ESEARCH and [self] with
    [search_results] set. *)
Definition search (self : t) : M (SearchResponse * t) :=
  let* search_term := lift (build_search_term self) in
  let* _ := print (PrintSearchTerm search_term) in
  let* _ := send (ESEARCH search_term) in
  let result := esearch svc search_term in
  let* _ :=
    if bool_decide (version result = u "0.3") then ret tt
    else print PrintVersionWarning in
  ret (result, set_search_results self (esearchresult result)).

(** [self._params_with_history()]: the cursor of the search. *)
Definition _params_with_history (self : t) : result (str * str) :=
  let? found := getattr (search_results self) in
  Ok (webenv found, querykey found).

(** The loop of [fetch_summaries]. *)
Fixpoint store_summaries (summaries_json : SummaryResult) (ids : list str)
    (acc : gmap str PaperSummary.t) : result (gmap str PaperSummary.t) :=
  match ids with
  | [] => Ok acc
  | pmid :: rest =>
      let? doc := getitem (docs summaries_json) pmid in
      store_summaries summaries_json rest
        (<[pmid := {| PaperSummary.pmid := pmid; PaperSummary.data := doc |}]>
           acc)
  end.

Definition fetch_summaries (self : t) : M t :=
  let* (WebEnv, query_key) := lift (_params_with_history self) in
  let* _ := send (ESUMMARY WebEnv query_key) in
  let summaries_json := esummary svc WebEnv query_key in
  let* stored :=
    lift (store_summaries summaries_json (uids summaries_json)
            (summaries self)) in
  ret (set_summaries self (uids summaries_json) stored).

(** The loop of [fetch_abstracts]. *)
Fixpoint store_abstracts (citations : list Element)
    (acc : gmap (option str) PaperAbstract.t)
  : result (gmap (option str) PaperAbstract.t) :=
  match citations with
  | [] => Ok acc
  | abstract :: rest =>
      let? id := getattr (find (u "PMID") abstract) in
      let pmid := text id in
      store_abstracts rest
        (<[pmid := {| PaperAbstract.pmid := pmid;
                      PaperAbstract.data := abstract |}]> acc)
  end.

Definition fetch_abstracts (self : t) : M t :=
  let* (WebEnv, query_key) := lift (_params_with_history self) in
  let* _ := send (EFETCH WebEnv query_key) in
  let abstracts_xml := efetch svc WebEnv query_key in
  let* stored :=
    lift (store_abstracts (findall (u "MedlineCitation") abstracts_xml)
            (abstracts self)) in
  ret (set_abstracts self stored).

(** One pass through the loop of [assess_trainee]. *)
Definition assess_paper (pmid : str) (self : t) : M t :=
  let* this_summary := lift (getitem (summaries self) pmid) in
  let* this_abstract := lift (getitem (abstracts self) (Some pmid)) in
  let* by_summary :=
    lift (PaperSummary.is_first_author this_summary (trainee self)) in
  let* first_author :=
    if by_summary then ret true
    else PaperAbstract.is_first_author this_abstract (trainee self) in
  let self :=
    set_trainee_stats self
      (Stats.count_paper (trainee_stats self)
         (PaperSummary.is_review this_summary) first_author
         (PaperSummary.journal_title this_summary)) in
  ret (append_paper_content self (PaperSummary.data this_summary)).

Fixpoint assess_papers (ids : list str) (self : t) : M t :=
  match ids with
  | [] => ret self
  | pmid :: rest =>
      let* self := assess_paper pmid self in
      assess_papers rest self
  end.

(** [self.assess_trainee()]: the statistics returned, and [self] as the
    call leaves it. *)
Definition assess_trainee (self : t) : M (Stats.t * t) :=
  let* (_, self) := search self in
  let* found := lift (getattr (search_results self)) in
  let self :=
    set_trainee_stats self
      (Stats.set_search (trainee_stats self) (count found) (idlist found)) in
  let* n := lift (getkey (Stats.paper_count (trainee_stats self))) in
  let* n := lift (py_int n) in
  if n =? 0 then
    let self :=
      set_trainee_stats self
        (Stats.set_error (trainee_stats self)
           (u "Search returned zero results")) in
    ret (trainee_stats self, self)
  else
    let* n := lift (getkey (Stats.paper_count (trainee_stats self))) in
    let* n := lift (py_int n) in
    if TOO_MANY_PAPERS <? n then
      let self :=
        set_trainee_stats self
          (Stats.set_error (trainee_stats self)
             (u "Search returned too many results")) in
      ret (trainee_stats self, self)
    else
      let* self := fetch_summaries self in
      let* self := fetch_abstracts self in
      let* ids := lift (getattr (pmids self)) in
      let* self := assess_papers ids self in
      ret (trainee_stats self, self).

End Methods.

End AuthorSearch.

(** ** main: what one roster row contributes *)

(** The body of the loop of [main]: the row of statistics appended to
    [trainee_stats] and the records with which [paper_content] is
    extended. *)
Definition main_row `{RT : Runtime} (svc : Service) (row : Row)
  : M (Stats.t * list SummaryData) :=
  let* a := AuthorSearch.__init__ row WITH_INITIAL in
  let* (stats, a) := AuthorSearch.assess_trainee svc a in
  ret (stats, AuthorSearch.paper_content a).

(** ** What the proofs use of the Unicode tables *)

(** Three facts of the Unicode Character Database, as Python exposes it:
    on ASCII text [str.lower] lowers the capitals [A]-[Z] and nothing else;
    ASCII text is its own canonical decomposition; and no lowered text
    decomposes to an ASCII capital (the code points with a capital in their
    decomposition are cased letters and the Kelvin and Angstrom signs, and
    [str.lower] maps them all). *)
Class UnicodeLaws (RT : Runtime) : Prop := {
  lower_ascii :
    forall s : str, Forall (fun c => is_ascii c = true) s ->
      str_lower s = map ascii_lower s;
  NFD_ascii :
    forall s : str, Forall (fun c => is_ascii c = true) s ->
      normalize_NFD s = s;
  NFD_lower_no_capital :
    forall (s : str) (c : N), In c (normalize_NFD (str_lower s)) ->
      is_ascii_upper c = false
}.

(** ** A runtime to compute with *)

(** A fragment of the tables, enough for the names of the doctests: the
    simple lowercase mapping of ASCII and Latin-1 and of the Kelvin sign,
    and the canonical decomposition of some accented letters. *)
Module Fragment.

Definition lower_code (c : N) : N :=
  if is_ascii_upper c then (c + 32)%N
  else if ((192 <=? c) && (c <=? 222) && negb (c =? 215))%N then (c + 32)%N
  else if (c =? 8490)%N then 107%N
  else c.

Definition decomposition : list (N * str) :=
  [ (201, [69; 769]); (220, [85; 776]); (8490, [75]);
    (224, [97; 768]); (225, [97; 769]); (231, [99; 807]);
    (232, [101; 768]); (233, [101; 769]); (241, [110; 771]);
    (246, [111; 776]); (252, [117; 776]) ]%N.

Definition decompose (c : N) : str :=
  match List.find (fun entry => (fst entry =? c)%N) decomposition with
  | Some entry => snd entry
  | None => [c]
  end.

Definition digit (c : N) : option Z :=
  if ((48 <=? c) && (c <=? 57))%N then Some (Z.of_N c - 48) else None.

Fixpoint digits (acc : Z) (s : str) : result Z :=
  match s with
  | [] => Ok acc
  | c :: s' =>
      match digit c with
      | Some d => digits (10 * acc + d) s'
      | None => Raise ValueError
      end
  end.

(** [int] on a run of ASCII digits with blanks around it. *)
Definition parse_int (s : str) : result Z :=
  match str_strip s with
  | [] => Raise ValueError
  | c :: s' => digits 0 (c :: s')
  end.

#[export] Instance runtime : Runtime := {|
  str_lower := map lower_code;
  normalize_NFD := flat_map decompose;
  py_int := parse_int
|}.

End Fragment.

(** ** The candidates of the full record *)

Section Candidates.
Context `{RT : Runtime}.

(** An entry of the author list whose flattened last name occurs in the
    flattened name of the trainee. *)
Definition candidate (standard_author : str) (entry : gmap str str) : bool :=
  match entry !! u "LastName" with
  | Some last => str_in (flatten_name last) standard_author
  | None => false
  end.

(** The entries of the author list of [self] that match [author]. *)
Definition candidates (self : PaperAbstract.t) (author : str)
  : list (gmap str str) :=
  List.filter (candidate (flatten_name author))
    (PaperAbstract.extract_authorship self).

End Candidates.

(** ** Sample records *)

Module Sample.

Definition leaf (t : string) (content : string) : Element :=
  Elem (u t) ∅ (Some (u content)) [].

Definition author (attribs : gmap str str) (last fore : string) : Element :=
  Elem (u "Author") attribs None
    [leaf "LastName" last; leaf "ForeName" fore].

(** An author without [LastName]: a collective name. *)
Definition collective (group : string) : Element :=
  Elem (u "Author") ∅ None [leaf "CollectiveName" group].

Definition citation (id : string) (author_list : list Element) : Element :=
  Elem (u "MedlineCitation") ∅ None
    [ leaf "PMID" id;
      Elem (u "Article") ∅ None
        [Elem (u "AuthorList") ∅ None author_list] ].

Definition valid : gmap str str := {[ u "ValidYN" := u "Y" ]}.

Definition equal_contrib : gmap str str :=
  {[ u "ValidYN" := u "Y"; u "EqualContrib" := u "Y" ]}.

(** The record of the docstring of [PaperAbstract]. *)
Definition huxlin : PaperAbstract.t :=
  {| PaperAbstract.pmid := Some (u "101");
     PaperAbstract.data :=
       citation "101"
         [ author valid "Huxlin" "Krystel R";
           author valid "Cavanaugh" "Matthew R" ] |}.

(** The same with the second author marked as contributing equally. *)
Definition huxlin_equal : PaperAbstract.t :=
  {| PaperAbstract.pmid := Some (u "102");
     PaperAbstract.data :=
       citation "102"
         [ collective "Vision Group";
           author valid "Huxlin" "Krystel R";
           author equal_contrib "Cavanaugh" "Matthew R" ] |}.

(** Two authors with the last name of the trainee. *)
Definition two_joyces : PaperAbstract.t :=
  {| PaperAbstract.pmid := Some (u "103");
     PaperAbstract.data :=
       citation "103"
         [ author valid "Joyce" "James"; author valid "Joyce" "Stanislaus" ] |}.

Definition summary (names tags : list str) (journal : str) : SummaryData :=
  {| authors := map (fun n => {| name := n; authtype := u "Author" |}) names;
     pubtype := tags;
     source := journal;
     articleids := [] |}.

Definition huxlin_summary : PaperSummary.t :=
  {| PaperSummary.pmid := u "101";
     PaperSummary.data :=
       summary [u "Huxlin KR"; u "Cavanaugh MR"] [u "Journal Article"]
         (u "J Neurosci") |}.

(** A service that answers every search with [n] results and the one
    paper of the docstring. *)
Definition service (n : string) : Service :=
  {| esearch := fun _ =>
       {| version := u "0.3";
          esearchresult :=
            {| count := u n; idlist := [u "101"];
               webenv := u "MCID_1"; querykey := u "1" |} |};
     esummary := fun _ _ =>
       {| uids := [u "101"];
          docs := {[ u "101" := PaperSummary.data huxlin_summary ]} |};
     efetch := fun _ _ =>
       Elem (u "PubmedArticleSet") ∅ None
         [Elem (u "PubmedArticle") ∅ None [PaperAbstract.data huxlin]] |}.

Definition row (last first : string) (advisor place : option cell) : Row :=
  {| LastName := Some (Str (u last));
     FirstName := Some (Str (u first));
     ThesisMentor := advisor;
     Location := place |}.

Definition world : World := {| requests := []; stdout := [] |}.

(** The second author of the docstring as a trainee of the first. *)
Definition cavanaugh_row : Row :=
  row "Cavanaugh" "Matthew" (Some (Str (u "Huxlin, Krystel"))) (Some NaN).

(** [AuthorSearch(cavanaugh_row)] and what constructing it printed. *)
Definition cavanaugh : AuthorSearch.t :=
  {| AuthorSearch.trainee_stats := EMPTY_TRAINEE_STATS;
     AuthorSearch.abstracts := ∅;
     AuthorSearch.summaries := ∅;
     AuthorSearch.paper_content := [];
     AuthorSearch.trainee := u "Cavanaugh M";
     AuthorSearch.mentor := Some (u "Huxlin K");
     AuthorSearch.location := None;
     AuthorSearch.search_results := None;
     AuthorSearch.pmids := None |}.

Definition cavanaugh_world : World :=
  {| requests := []; stdout := [PrintRow cavanaugh_row] |}.

Definition cavanaugh_term : str := u "Cavanaugh M[Author] Huxlin K[Author] ".

(** The first author of the docstring as a trainee without mentor. *)
Definition huxlin_row : Row := row "Huxlin" "Krystel" (Some NaN) (Some NaN).

Definition huxlin_search : AuthorSearch.t :=
  {| AuthorSearch.trainee_stats := EMPTY_TRAINEE_STATS;
     AuthorSearch.abstracts := ∅;
     AuthorSearch.summaries := ∅;
     AuthorSearch.paper_content := [];
     AuthorSearch.trainee := u "Huxlin K";
     AuthorSearch.mentor := None;
     AuthorSearch.location := None;
     AuthorSearch.search_results := None;
     AuthorSearch.pmids := None |}.

Definition huxlin_world : World :=
  {| requests := []; stdout := [PrintRow huxlin_row] |}.

Definition huxlin_term : str := u "Huxlin K[Author] ".

End Sample.

(** ** main: the loop over the roster *)

(** The loop of [main] over the rows of [infile], from the statistics and
    the paper content gathered so far. What [main] does before it (the
    check of [config.py], reading the CSV file) and after it (writing the
    two CSV files) is not modelled. *)
Fixpoint main_loop `{RT : Runtime} (svc : Service) (rows : list Row)
    (trainee_stats : list Stats.t) (paper_content : list SummaryData)
  : M (list Stats.t * list SummaryData) :=
  match rows with
  | [] => ret (trainee_stats, paper_content)
  | row :: rest =>
      let* (stats, content) := main_row svc row in
      main_loop svc rest (trainee_stats ++ [stats]) (paper_content ++ content)
  end.

(** * Properties *)

(** ** Strings *)

(** Comparisons of code points as propositions, for [lia]. *)
Ltac code_points :=
  repeat match goal with
    | H : _ = false |- _ => apply not_true_iff_false in H
    | |- _ = false => apply not_true_iff_false; intro
    end;
  rewrite ?orb_true_iff, ?andb_true_iff, ?negb_true_iff, ?N.leb_le,
    ?N.ltb_lt, ?N.eqb_eq, ?N.eqb_neq in *.

Lemma is_alnum_ascii (c : N) : is_alnum c = true -> is_ascii c = true.
Proof. unfold is_alnum, is_ascii. intros H. code_points. lia. Qed.

Lemma is_alnum_not_space (c : N) : is_alnum c = true -> is_space c = false.
Proof. unfold is_alnum, is_space. intros H. code_points. lia. Qed.

Lemma ascii_lower_fixed (c : N) : is_ascii_upper c = false -> ascii_lower c = c.
Proof. unfold ascii_lower. now intros ->. Qed.

Lemma filter_fixed {A} (f : A -> bool) (l : list A) :
  Forall (fun x => f x = true) l -> List.filter f l = l.
Proof.
  induction 1 as [|x l Hx _ IH]; simpl; [reflexivity|].
  rewrite Hx. now f_equal.
Qed.

Lemma Forall_filter_true {A} (f : A -> bool) (l : list A) :
  Forall (fun x => f x = true) (List.filter f l).
Proof.
  apply List.Forall_forall. intros x Hx.
  now apply List.filter_In in Hx.
Qed.

Lemma lstrip_head_kept (c : N) (s : str) :
  is_space c = false -> lstrip (c :: s) = c :: s.
Proof. simpl. now intros ->. Qed.

Lemma lstrip_no_space (s : str) :
  Forall (fun c => is_space c = false) s -> lstrip s = s.
Proof. destruct 1; [reflexivity|]. now apply lstrip_head_kept. Qed.

Lemma str_strip_no_space (s : str) :
  Forall (fun c => is_space c = false) s -> str_strip s = s.
Proof.
  intros H. unfold str_strip, rstrip.
  rewrite (lstrip_no_space s H).
  rewrite lstrip_no_space; [apply rev_involutive|].
  apply List.Forall_forall. intros c Hc. apply List.in_rev in Hc.
  revert c Hc. now apply List.Forall_forall.
Qed.

Lemma map_fixed {A} (f : A -> A) (l : list A) :
  Forall (fun x => f x = x) l -> map f l = l.
Proof. induction 1; simpl; congruence. Qed.

Section NameFacts.
Context `{RT : Runtime}.

Lemma flatten_name_alnum (x : str) :
  Forall (fun c => is_alnum c = true) (flatten_name x).
Proof. apply Forall_filter_true. Qed.

Lemma flatten_name_from_NFD (x : str) (c : N) :
  In c (flatten_name x) -> In c (normalize_NFD (str_lower (str_strip x))).
Proof.
  unfold flatten_name, re_sub_non_alnum, strip_accents, encode_ascii_ignore.
  intros H. apply List.filter_In in H as [H _].
  now apply List.filter_In in H as [H _].
Qed.

Lemma names_match_refl (x : str) : names_match x x = true.
Proof. unfold names_match. now apply bool_decide_eq_true. Qed.

Lemma names_match_sym (x y : str) : names_match x y = names_match y x.
Proof. unfold names_match. apply bool_decide_ext. split; congruence. Qed.

End NameFacts.

(** C9. [flatten_name] is idempotent: flattening a flattened name changes
    nothing, over any runtime whose tables satisfy [UnicodeLaws]. *)
Theorem flatten_name_idempotent `{RT : Runtime} (UL : UnicodeLaws RT)
    (x : str) :
  flatten_name (flatten_name x) = flatten_name x.
Proof.
  pose proof (flatten_name_alnum x) as Halnum.
  assert (Hlow : Forall (fun c => is_ascii_upper c = false) (flatten_name x)).
  { apply List.Forall_forall. intros c Hc.
    apply flatten_name_from_NFD in Hc.
    exact (NFD_lower_no_capital _ _ Hc). }
  set (y := flatten_name x) in *.
  assert (Hascii : Forall (fun c => is_ascii c = true) y).
  { eapply Forall_impl; [exact Halnum|]. exact is_alnum_ascii. }
  assert (Hnosp : Forall (fun c => is_space c = false) y).
  { eapply Forall_impl; [exact Halnum|]. exact is_alnum_not_space. }
  unfold flatten_name at 1, strip_accents.
  rewrite (str_strip_no_space y Hnosp).
  rewrite (lower_ascii y Hascii).
  rewrite (map_fixed ascii_lower y).
  2:{ eapply Forall_impl; [exact Hlow|]. exact ascii_lower_fixed. }
  rewrite (NFD_ascii y Hascii).
  unfold encode_ascii_ignore, re_sub_non_alnum.
  rewrite (filter_fixed is_ascii y Hascii).
  apply filter_fixed, Halnum.
Qed.

(** The runtime fragment satisfies the three facts. *)

Lemma fragment_lower_code_ascii (c : N) :
  is_ascii c = true -> Fragment.lower_code c = ascii_lower c.
Proof.
  unfold Fragment.lower_code, ascii_lower, is_ascii. intros Hc.
  destruct (is_ascii_upper c); [reflexivity|].
  code_points.
  replace ((192 <=? c)%N) with false by (symmetry; apply N.leb_gt; lia).
  replace ((c =? 8490)%N) with false by (symmetry; apply N.eqb_neq; lia).
  reflexivity.
Qed.

Lemma fragment_decompose_other (c : N) :
  Forall (fun entry => fst entry <> c) Fragment.decomposition ->
  Fragment.decompose c = [c].
Proof.
  unfold Fragment.decompose. intros H.
  induction H as [|entry l Hne _ IH]; simpl; [reflexivity|].
  apply N.eqb_neq in Hne. now rewrite Hne.
Qed.

Lemma fragment_decompose_ascii (c : N) :
  is_ascii c = true -> Fragment.decompose c = [c].
Proof.
  unfold is_ascii. intros Hc. code_points.
  apply fragment_decompose_other.
  unfold Fragment.decomposition.
  repeat constructor; simpl; lia.
Qed.

Lemma fragment_lower_code_range (c : N) :
  let d := Fragment.lower_code c in
  is_ascii_upper d = false /\ d <> 201%N /\ d <> 220%N /\ d <> 8490%N.
Proof.
  unfold Fragment.lower_code.
  destruct (is_ascii_upper c) eqn:Hup.
  { unfold is_ascii_upper in *.
    cbv zeta; repeat split; code_points; lia. }
  destruct ((192 <=? c)%N && (c <=? 222)%N && negb (c =? 215)%N) eqn:Hlat.
  { unfold is_ascii_upper in *.
    cbv zeta; repeat split; code_points; lia. }
  destruct (N.eqb_spec c 8490) as [->|Hk].
  { repeat split; (reflexivity || discriminate). }
  unfold is_ascii_upper in *.
  cbv zeta; repeat split; code_points; lia.
Qed.

Lemma fragment_no_capital (c e : N) :
  In e (Fragment.decompose (Fragment.lower_code c)) -> is_ascii_upper e = false.
Proof.
  destruct (fragment_lower_code_range c) as (Hup & H201 & H220 & HK).
  cbv zeta in *. set (d := Fragment.lower_code c) in *. clearbody d.
  unfold Fragment.decompose, Fragment.decomposition. cbn [List.find fst snd].
  repeat lazymatch goal with
    | |- context [(?k =? d)%N] =>
        destruct (N.eqb_spec k d) as [<-|?];
        [ try congruence;
          let H := fresh in
          intros H; cbn in H;
          repeat (destruct H as [<-|H]; [reflexivity|]); destruct H
        | ]
    end.
  intros [<-|[]]. exact Hup.
Qed.

#[local] Instance fragment_laws : UnicodeLaws Fragment.runtime.
Proof.
  split.
  - intros s Hs. cbn [str_lower Fragment.runtime].
    apply map_ext_Forall. eapply Forall_impl; [exact Hs|].
    exact fragment_lower_code_ascii.
  - intros s Hs. cbn [normalize_NFD Fragment.runtime].
    induction Hs as [|c s Hc _ IH]; [reflexivity|].
    cbn [flat_map]. rewrite IH, (fragment_decompose_ascii c Hc). reflexivity.
  - intros s e. cbn [normalize_NFD str_lower Fragment.runtime]. intros He.
    apply List.in_flat_map in He as (d & Hd & He).
    apply List.in_map_iff in Hd as (c & <- & _).
    exact (fragment_no_capital c e He).
Qed.

(** The doctests of [strip_accents], [flatten_name] and [names_match],
    with [é] = 233, [ü] = 252, [ç] = 231. *)

Example strip_accents_Montreal :
  strip_accents (RT := Fragment.runtime) (u "Montr" ++ [233%N] ++ u "al")
  = u "Montreal".
Proof. reflexivity. Qed.

Example strip_accents_uber :
  strip_accents (RT := Fragment.runtime) ([252%N] ++ u "ber") = u "uber".
Proof. reflexivity. Qed.

Example flatten_name_Joyce :
  flatten_name (RT := Fragment.runtime) (u "James  Joyce   ") = u "jamesjoyce".
Proof. reflexivity. Qed.

Example flatten_name_Saint_Exupery :
  flatten_name (RT := Fragment.runtime) (u "Saint-Exup" ++ [233%N] ++ u "ry")
  = u "saintexupery".
Proof. reflexivity. Qed.

Example flatten_name_ONeill :
  flatten_name (RT := Fragment.runtime) (u "O'Neill E") = u "oneille".
Proof. reflexivity. Qed.

Example names_match_Eliot :
  names_match (RT := Fragment.runtime) (u "T. S. Eliot") (u "T S Eliot") = true.
Proof. reflexivity. Qed.

Example names_match_Saramago :
  names_match (RT := Fragment.runtime)
    (u "Jos" ++ [233%N] ++ u " Saramago") (u "Jose Saramago") = true.
Proof. reflexivity. Qed.

Example names_match_Tolkien :
  names_match (RT := Fragment.runtime)
    (u "John Ronald Reuel Tolkien") (u "J. R. R. Tolkein") = false.
Proof. reflexivity. Qed.

Example format_name_Joyce :
  format_name (Str (u "Joyce   ")) (Str (u "James")) true = Ok (u "Joyce J")
  /\ format_name (Str (u "Joyce")) (Str (u "James")) false = Ok (u "Joyce").
Proof. split; reflexivity. Qed.

(** The Kelvin sign (8490) flattens to [k], and flattening again keeps it. *)
Lemma flatten_name_idempotent_witness :
  flatten_name (RT := Fragment.runtime)
    (flatten_name (RT := Fragment.runtime) (u "Mc" ++ [8490%N] ++ [201%N]))
  = flatten_name (RT := Fragment.runtime) (u "Mc" ++ [8490%N] ++ [201%N]).
Proof. exact (flatten_name_idempotent fragment_laws _). Defined.

(** ** Reviews *)

(** C6. [is_review] holds exactly when the tag [Review] is among the
    publication types of the summary; a summary tagged [Journal Article]
    alone is not a review, whatever else it holds. *)
Theorem is_review_iff_tagged (self : PaperSummary.t) :
  (PaperSummary.is_review self = true
   <-> In (u "Review") (pubtype (PaperSummary.data self)))
  /\ (forall id names title ids,
        PaperSummary.is_review
          {| PaperSummary.pmid := id;
             PaperSummary.data :=
               {| authors := names;
                  pubtype := [u "Journal Article"];
                  source := title;
                  articleids := ids |} |} = false).
Proof.
  split.
  - unfold PaperSummary.is_review.
    rewrite bool_decide_eq_true. apply list_elem_of_In.
  - intros. reflexivity.
Qed.

(** The tag is compared whole: [Systematic Review] is not [Review]. *)
Example is_review_whole_tag :
  PaperSummary.is_review
    {| PaperSummary.pmid := u "1";
       PaperSummary.data :=
         {| authors := [];
            pubtype := [u "Journal Article"; u "Systematic Review"];
            source := u "Nature";
            articleids := [] |} |} = false.
Proof. reflexivity. Qed.

(** ** First author by the summary *)

Section SummaryFacts.
Context `{RT : Runtime}.

(** C3. On a summary with at least one author, [is_first_author] returns
    a boolean, and it is true exactly when the display name of the first
    author, cut to as many characters as the trainee's name has before
    flattening, flattens to the flattened name of the trainee. *)
Theorem summary_is_first_author_iff (self : PaperSummary.t) (author : str)
    (Hauthors : authors (PaperSummary.data self) <> []) :
  exists (first : AuthorEntry) (b : bool),
    head (authors (PaperSummary.data self)) = Some first
    /\ PaperSummary.is_first_author self author = Ok b
    /\ (b = true
        <-> flatten_name (take (length author) (name first))
            = flatten_name author).
Proof.
  unfold PaperSummary.is_first_author, first_item, item.
  destruct (authors (PaperSummary.data self)) as [|first rest];
    [contradiction|].
  exists first, (bool_decide
    (flatten_name (take (length author) (name first)) = flatten_name author)).
  repeat split; try reflexivity.
  - apply bool_decide_eq_true_1.
  - apply bool_decide_eq_true_2.
Qed.

(** C10. [is_first_author] on a summary raises [IndexError] exactly when
    the summary has no author; with an author it returns a boolean. *)
Theorem summary_is_first_author_total_iff (self : PaperSummary.t)
    (author : str) :
  (PaperSummary.is_first_author self author = Raise IndexError
   <-> authors (PaperSummary.data self) = [])
  /\ ((exists b : bool, PaperSummary.is_first_author self author = Ok b)
      <-> authors (PaperSummary.data self) <> []).
Proof.
  unfold PaperSummary.is_first_author, first_item, item.
  destruct (authors (PaperSummary.data self)) as [|first rest]; cbn.
  - split; split; try reflexivity; try contradiction.
    intros [b Hb]. discriminate.
  - split; split; try discriminate; intros _.
    eexists. reflexivity.
Qed.

End SummaryFacts.

(** ** Substrings *)

Lemma startswith_prefix (s p : str) :
  startswith s p = true <-> exists r, s = p ++ r.
Proof.
  revert s. induction p as [|c p IH]; intros s; simpl.
  - split; [intros _; now exists s|reflexivity].
  - destruct s as [|d s]; simpl.
    + split; [discriminate|intros [r Hr]; discriminate].
    + rewrite andb_true_iff, N.eqb_eq, IH. split.
      * intros [-> [r ->]]. now exists r.
      * intros [r Hr]. injection Hr as -> ->. split; [reflexivity|now exists r].
Qed.

(** [str_in p s] holds exactly when [p] is a contiguous part of [s]. *)
Lemma str_in_substring (p s : str) :
  str_in p s = true <-> exists l r, s = l ++ p ++ r.
Proof.
  induction s as [|d s IH].
  - cbn [str_in]. rewrite orb_false_r, startswith_prefix. split.
    + intros [r Hr]. now exists [], r.
    + intros (l & r & H). destruct l; [|discriminate]. now exists r.
  - cbn [str_in]. rewrite orb_true_iff, startswith_prefix, IH. split.
    + intros [[r Hr]|(l & r & ->)].
      * now exists [], r.
      * now exists (d :: l), r.
    + intros (l & r & H). destruct l as [|c l].
      * left. now exists r.
      * right. injection H as _ ->. now exists l, r.
Qed.

Lemma str_in_empty (s : str) : str_in [] s = true.
Proof. destruct s; reflexivity. Qed.

(** ** First author by the full record *)

(** A filter that keeps one element keeps the element of one position. *)
Lemma filter_one_position {A} (f : A -> bool) (l : list A) :
  length (List.filter f l) = 1%nat ->
  exists (i : nat) (x : A),
    l !! i = Some x /\ f x = true /\ List.filter f l = [x]
    /\ (forall j y, l !! j = Some y -> f y = true -> j = i).
Proof.
  induction l as [|a l IH]; cbn [List.filter]; [discriminate|].
  destruct (f a) eqn:Ha.
  - cbn [length]. intros Hlen.
    assert (Hnil : List.filter f l = []).
    { destruct (List.filter f l); [reflexivity|discriminate]. }
    exists 0%nat, a. rewrite Hnil. repeat split; try assumption.
    intros [|j] y Hy Hfy; [reflexivity|].
    cbn in Hy. apply list_elem_of_lookup_2, list_elem_of_In in Hy.
    assert (Hin : In y (List.filter f l)) by (apply List.filter_In; auto).
    rewrite Hnil in Hin. destruct Hin.
  - intros Hlen. destruct (IH Hlen) as (i & x & Hi & Hx & Hfl & Huniq).
    exists (S i), x. repeat split; try assumption.
    intros [|j] y Hy Hfy; cbn in Hy.
    + congruence.
    + f_equal. eauto.
Qed.

Lemma extract_authorship_LastName (self : PaperAbstract.t)
    (entry : gmap str str) :
  In entry (PaperAbstract.extract_authorship self) ->
  is_Some (entry !! u "LastName").
Proof.
  unfold PaperAbstract.extract_authorship. intros H.
  apply List.in_flat_map in H as (el & _ & H).
  cbv zeta in H. unfold has_key in H.
  destruct (PaperAbstract.author_dict el !! u "LastName") as [last|] eqn:Hl;
    [|destruct H].
  destruct H as [<-|[]]. exists last.
  now apply lookup_union_Some_l.
Qed.

Section AbstractFacts.
Context `{RT : Runtime}.

(** The comprehension raises nothing on entries that all have a last name:
    it is the filter by [candidate]. *)
Lemma matching_filter (standard_author : str) (l : list (gmap str str)) :
  (forall entry, In entry l -> is_Some (entry !! u "LastName")) ->
  PaperAbstract.matching standard_author l
  = Ok (List.filter (candidate standard_author) l).
Proof.
  induction l as [|a l IH]; intros Hall; [reflexivity|].
  cbn [PaperAbstract.matching List.filter].
  destruct (Hall a (or_introl eq_refl)) as [last Hlast].
  unfold getitem, candidate at 1. rewrite Hlast. cbn [result_bind].
  rewrite IH by (intros; apply Hall; now right).
  reflexivity.
Qed.

Lemma matching_candidates (self : PaperAbstract.t) (author : str) :
  PaperAbstract.matching (flatten_name author)
    (PaperAbstract.extract_authorship self)
  = Ok (candidates self author).
Proof. apply matching_filter, extract_authorship_LastName. Qed.

(** C1. When the entries of the author list whose flattened last name
    occurs in the flattened name of the trainee are none or several,
    [is_first_author] on the full record returns [False]: it raises
    nothing, and all it does besides is print their number. *)
Theorem abstract_is_first_author_undetermined (self : PaperAbstract.t)
    (author : str) (w : World)
    (Hcount : length (candidates self author) = 0%nat
              \/ (1 < length (candidates self author))%nat) :
  PaperAbstract.is_first_author self author w
  = (Ok false,
     {| requests := requests w;
        stdout := stdout w ++ [PrintFound (length (candidates self author))] |}).
Proof.
  unfold PaperAbstract.is_first_author, bind, lift.
  rewrite matching_candidates.
  destruct (Nat.eqb_spec (length (candidates self author)) 1) as [Hone|_].
  - lia.
  - reflexivity.
Qed.

(** C2. When exactly one entry of the author list has a flattened last
    name that occurs in the flattened name of the trainee, that entry
    stands at one position [i] of the list, [is_first_author] on the full
    record returns a boolean and prints nothing, and the boolean is true
    exactly when [i] is 0 or the entry has the key [EqualContrib]. *)
Theorem abstract_is_first_author_iff (self : PaperAbstract.t) (author : str)
    (Hcount : length (candidates self author) = 1%nat) :
  exists (i : nat) (entry : gmap str str),
    PaperAbstract.extract_authorship self !! i = Some entry
    /\ candidates self author = [entry]
    /\ (forall j other,
          PaperAbstract.extract_authorship self !! j = Some other ->
          candidate (flatten_name author) other = true -> j = i)
    /\ forall w : World, exists b : bool,
         PaperAbstract.is_first_author self author w = (Ok b, w)
         /\ (b = true
             <-> i = 0%nat \/ has_key entry (u "EqualContrib") = true).
Proof.
  destruct (filter_one_position _ _ Hcount)
    as (i & entry & Hi & Hcand & Hone & Huniq).
  fold (candidates self author) in Hone.
  exists i, entry. repeat split; try assumption.
  intros w.
  unfold PaperAbstract.is_first_author, bind, lift.
  rewrite matching_candidates, Hone. cbn [length Nat.eqb negb].
  unfold first_item, item. cbn [lookup list_lookup].
  destruct (PaperAbstract.extract_authorship self) as [|a0 rest] eqn:Hlist;
    [discriminate|].
  cbn [lookup list_lookup]. unfold ret.
  eexists. split; [reflexivity|].
  rewrite orb_true_iff, bool_decide_eq_true. split.
  - intros [Heq|Hco]; [left|now right].
    subst a0. symmetry. now apply (Huniq 0%nat entry).
  - intros [->|Hco]; [left|now right].
    cbn in Hi. congruence.
Qed.

End AbstractFacts.

(** Two authors named Joyce: the trainee cannot be told apart. *)
Lemma abstract_is_first_author_undetermined_witness :
  PaperAbstract.is_first_author (RT := Fragment.runtime)
    Sample.two_joyces (u "Joyce J") Sample.world
  = (Ok false,
     {| requests := [];
        stdout :=
          [] ++ [PrintFound
                   (length (candidates (RT := Fragment.runtime)
                              Sample.two_joyces (u "Joyce J")))] |}).
Proof.
  apply (abstract_is_first_author_undetermined (RT := Fragment.runtime)
           Sample.two_joyces (u "Joyce J") Sample.world).
  right. vm_compute. lia.
Defined.

Example abstract_two_matches_printed :
  PaperAbstract.is_first_author (RT := Fragment.runtime)
    Sample.two_joyces (u "Joyce J") Sample.world
  = (Ok false, {| requests := []; stdout := [PrintFound 2] |}).
Proof. vm_compute. reflexivity. Qed.

Example abstract_no_match_printed :
  PaperAbstract.is_first_author (RT := Fragment.runtime)
    Sample.huxlin (u "Joyce J") Sample.world
  = (Ok false, {| requests := []; stdout := [PrintFound 0] |}).
Proof. vm_compute. reflexivity. Qed.

(** The trainee is the second author with a last name, marked as
    contributing equally. *)
Lemma abstract_is_first_author_iff_witness :
  exists (i : nat) (entry : gmap str str),
    PaperAbstract.extract_authorship Sample.huxlin_equal !! i = Some entry
    /\ candidates (RT := Fragment.runtime) Sample.huxlin_equal
         (u "Cavanaugh M") = [entry]
    /\ (forall j other,
          PaperAbstract.extract_authorship Sample.huxlin_equal !! j
          = Some other ->
          candidate (RT := Fragment.runtime)
            (flatten_name (RT := Fragment.runtime) (u "Cavanaugh M")) other
          = true -> j = i)
    /\ forall w : World, exists b : bool,
         PaperAbstract.is_first_author (RT := Fragment.runtime)
           Sample.huxlin_equal (u "Cavanaugh M") w = (Ok b, w)
         /\ (b = true
             <-> i = 0%nat \/ has_key entry (u "EqualContrib") = true).
Proof.
  apply (abstract_is_first_author_iff (RT := Fragment.runtime)
           Sample.huxlin_equal (u "Cavanaugh M")).
  vm_compute. reflexivity.
Defined.

(** The three cases of the full record: the first author, a later author
    marked as contributing equally, a later author without the mark. *)
Example abstract_first_listed :
  fst (PaperAbstract.is_first_author (RT := Fragment.runtime)
         Sample.huxlin (u "Huxlin K") Sample.world) = Ok true.
Proof. vm_compute. reflexivity. Qed.

Example abstract_later_equal_contrib :
  fst (PaperAbstract.is_first_author (RT := Fragment.runtime)
         Sample.huxlin_equal (u "Cavanaugh M") Sample.world) = Ok true.
Proof. vm_compute. reflexivity. Qed.

Example abstract_later_unmarked :
  fst (PaperAbstract.is_first_author (RT := Fragment.runtime)
         Sample.huxlin (u "Cavanaugh M") Sample.world) = Ok false.
Proof. vm_compute. reflexivity. Qed.

(** An author without [LastName] is no entry of the author list. *)
Example extract_authorship_skips_collective :
  length (PaperAbstract.extract_authorship Sample.huxlin_equal) = 2%nat.
Proof. vm_compute. reflexivity. Qed.

Lemma summary_is_first_author_iff_witness :
  exists (first : AuthorEntry) (b : bool),
    head (authors (PaperSummary.data Sample.huxlin_summary)) = Some first
    /\ PaperSummary.is_first_author (RT := Fragment.runtime)
         Sample.huxlin_summary (u "Huxlin K") = Ok b
    /\ (b = true
        <-> flatten_name (RT := Fragment.runtime)
              (take (length (u "Huxlin K")) (name first))
            = flatten_name (RT := Fragment.runtime) (u "Huxlin K")).
Proof.
  apply (summary_is_first_author_iff (RT := Fragment.runtime)
           Sample.huxlin_summary (u "Huxlin K")).
  vm_compute. discriminate.
Defined.

(** The cut is by the length of the name as written: [Huxlin KR] is cut to
    [Huxlin K], and a trainee written with a blank too many is missed. *)
Example summary_first_author_cut :
  PaperSummary.is_first_author (RT := Fragment.runtime)
    Sample.huxlin_summary (u "Huxlin K") = Ok true
  /\ PaperSummary.is_first_author (RT := Fragment.runtime)
       Sample.huxlin_summary (u "Huxlin  K") = Ok false.
Proof. split; vm_compute; reflexivity. Qed.

(** ** The trainee, the mentor and the location of a row *)

Lemma parse_mentor_not_str (mentor : cell) (with_initial : bool) :
  (forall s, mentor <> Str s) ->
  AuthorSearch.parse_mentor mentor with_initial = Raise AttributeError.
Proof. destruct mentor; intros H; try reflexivity. now destruct (H s). Qed.

Lemma parse_location_None (row : Row) :
  try_except (AuthorSearch.parse_location row) None = None
  <-> Location row = None \/ Location row = Some NaN.
Proof.
  unfold AuthorSearch.parse_location.
  destruct (Location row) as [[| | |]|]; cbn; split; intros H;
    try reflexivity; try discriminate; auto;
    destruct H; discriminate.
Qed.

Lemma parse_location_kept (row : Row) (loc : cell) :
  Location row = Some loc -> loc <> NaN ->
  try_except (AuthorSearch.parse_location row) None = Some loc.
Proof.
  unfold AuthorSearch.parse_location. intros -> Hloc.
  destruct loc; cbn; congruence.
Qed.

(** What [_parse_trainee_mentor] stores. For a row that has the columns
    [LastName], [FirstName] and [ThesisMentor] and whose trainee name can
    be formatted, it raises nothing. The mentor is [None] whenever reading
    the mentor cell raises, and so whenever the cell is not a string. The
    location is [None] exactly when the column [Location] is absent or the
    cell is empty; any other cell is stored unchanged. With neither mentor
    nor location the search term is the name of the trainee with the
    author tag. *)
Theorem parse_trainee_mentor_recovers (row : Row) (with_initial : bool)
    (last first advisor : cell) (who : str)
    (Hlast : LastName row = Some last)
    (Hfirst : FirstName row = Some first)
    (Hadvisor : ThesisMentor row = Some advisor)
    (Hname : format_name last first with_initial = Ok who) :
  exists (m : option str) (loc : option cell),
    AuthorSearch._parse_trainee_mentor row with_initial = Ok (who, m, loc)
    /\ (forall e, AuthorSearch.parse_mentor advisor with_initial = Raise e ->
                  m = None)
    /\ (forall found, AuthorSearch.parse_mentor advisor with_initial
                      = Ok found -> m = Some found)
    /\ ((forall s, advisor <> Str s) -> m = None)
    /\ (loc = None <-> Location row = None \/ Location row = Some NaN)
    /\ (forall c, Location row = Some c -> c <> NaN -> loc = Some c)
    /\ (forall self : AuthorSearch.t,
          AuthorSearch.trainee self = who ->
          AuthorSearch.mentor self = None ->
          AuthorSearch.location self = None ->
          AuthorSearch.build_search_term self = Ok (who ++ ATAG)).
Proof.
  unfold AuthorSearch._parse_trainee_mentor.
  rewrite Hlast, Hfirst, Hadvisor. cbn [getattr result_bind].
  rewrite Hname. cbn [result_bind].
  eexists _, _. split; [reflexivity|].
  split; [intros e ->; reflexivity|].
  split; [intros found ->; reflexivity|].
  split.
  { intros Hns. now rewrite (parse_mentor_not_str advisor with_initial Hns). }
  split; [apply parse_location_None|].
  split; [apply parse_location_kept|].
  intros self Hwho Hm Hloc.
  unfold AuthorSearch.build_search_term. now rewrite Hwho, Hm, Hloc.
Qed.

(** A row with an empty mentor cell and no location column. *)
Lemma parse_trainee_mentor_recovers_witness :
  exists (m : option str) (loc : option cell),
    AuthorSearch._parse_trainee_mentor
      (Sample.row "Joyce" "James" (Some NaN) None) true
    = Ok (u "Joyce J", m, loc)
    /\ (forall e, AuthorSearch.parse_mentor NaN true = Raise e -> m = None)
    /\ (forall found, AuthorSearch.parse_mentor NaN true = Ok found ->
                      m = Some found)
    /\ ((forall s, NaN <> Str s) -> m = None)
    /\ (loc = None
        <-> Location (Sample.row "Joyce" "James" (Some NaN) None) = None
            \/ Location (Sample.row "Joyce" "James" (Some NaN) None)
               = Some NaN)
    /\ (forall c,
          Location (Sample.row "Joyce" "James" (Some NaN) None) = Some c ->
          c <> NaN -> loc = Some c)
    /\ (forall self : AuthorSearch.t,
          AuthorSearch.trainee self = u "Joyce J" ->
          AuthorSearch.mentor self = None ->
          AuthorSearch.location self = None ->
          AuthorSearch.build_search_term self = Ok (u "Joyce J" ++ ATAG)).
Proof.
  apply (parse_trainee_mentor_recovers
           (Sample.row "Joyce" "James" (Some NaN) None) true
           (Str (u "Joyce")) (Str (u "James")) NaN (u "Joyce J"));
    reflexivity.
Defined.

(** Mentor cells: a name with a comma is formatted, a name without one is
    taken whole, and a comma with nothing behind it leaves no mentor. *)
Example parse_mentor_cells :
  let parsed advisor :=
    AuthorSearch._parse_trainee_mentor
      (Sample.row "Joyce" "James" (Some advisor) (Some NaN)) true in
  parsed (Str (u "Ellmann, Richard"))
  = Ok (u "Joyce J", Some (u "Ellmann R"), None)
  /\ parsed (Str (u "Ellmann")) = Ok (u "Joyce J", Some (u "Ellmann"), None)
  /\ parsed (Str (u "Ellmann, ")) = Ok (u "Joyce J", None, None)
  /\ parsed (Num 7) = Ok (u "Joyce J", None, None)
  /\ parsed NaN = Ok (u "Joyce J", None, None).
Proof. repeat split; reflexivity. Qed.

(** Without the column [ThesisMentor] the attribute is read outside the
    [try], and the exception leaves the constructor. *)
Example parse_mentor_column_absent :
  AuthorSearch._parse_trainee_mentor
    (Sample.row "Joyce" "James" None (Some (Str (u "Dublin")))) true
  = Raise AttributeError.
Proof. reflexivity. Qed.

(** C8. The code at a row whose location is a number. The mentor path
    turns a cell that is no string into [None]; the location path does
    not: the constructor returns with the number as location, not [None],
    and the search then raises [TypeError] on [self.location + LTAG]
    before any request is sent, so the row cannot be searched by the name
    of the trainee alone. *)
Lemma location_number_not_None :
  exists (self : AuthorSearch.t) (w : World),
    AuthorSearch.__init__
      (Sample.row "Joyce" "James" (Some NaN) (Some (Num 14642))) WITH_INITIAL
      Sample.world = (Ok self, w)
    /\ AuthorSearch.location self = Some (Num 14642)
    /\ AuthorSearch.location self <> None
    /\ AuthorSearch.search (Sample.service "1") self w
       = (Raise TypeError, w).
Proof.
  eexists _, _. split; [reflexivity|].
  split; [reflexivity|]. split; [discriminate|reflexivity].
Qed.

(** ** Running the monad *)

Lemma bind_Ok {A B} (m : M A) (k : A -> M B) (w w' : World) (a : A) :
  m w = (Ok a, w') -> bind m k w = k a w'.
Proof. unfold bind. now intros ->. Qed.

Lemma bind_Raise {A B} (m : M A) (k : A -> M B) (w w' : World) (e : exn) :
  m w = (Raise e, w') -> bind m k w = (Raise e, w').
Proof. unfold bind. now intros ->. Qed.

Lemma bind_lift_Ok {A B} (r : result A) (k : A -> M B) (w : World) (a : A) :
  r = Ok a -> bind (lift r) k w = k a w.
Proof. intros ->. reflexivity. Qed.

(** ** The constructor and the search *)

(** A constructed [AuthorSearch] has empty statistics, no records and no
    paper content, and constructing it sends no request. *)
Lemma init_fresh (row : Row) (with_initial : bool) (w0 w : World)
    (self : AuthorSearch.t) :
  AuthorSearch.__init__ row with_initial w0 = (Ok self, w) ->
  AuthorSearch.trainee_stats self = EMPTY_TRAINEE_STATS
  /\ AuthorSearch.abstracts self = ∅
  /\ AuthorSearch.summaries self = ∅
  /\ AuthorSearch.paper_content self = []
  /\ requests w = requests w0.
Proof.
  unfold AuthorSearch.__init__, bind, print, lift, ret. cbn.
  destruct (AuthorSearch._parse_trainee_mentor row with_initial)
    as [[[who m] loc]|e]; [|discriminate].
  intros [= <- <-]. repeat split.
Qed.

(** A search whose term can be built sends that one request and stores
    the answer on [self]. *)
Lemma search_Ok (svc : Service) (self : AuthorSearch.t) (w : World)
    (term : str) :
  AuthorSearch.build_search_term self = Ok term ->
  exists w',
    AuthorSearch.search svc self w
    = (Ok (esearch svc term,
           AuthorSearch.set_search_results self
             (esearchresult (esearch svc term))), w')
    /\ requests w' = requests w ++ [ESEARCH term].
Proof.
  intros Hterm. unfold AuthorSearch.search.
  rewrite (bind_lift_Ok _ _ _ _ Hterm).
  unfold bind, print, send, ret. cbn.
  destruct (bool_decide (version (esearch svc term) = u "0.3"));
    cbn; eexists; split; reflexivity.
Qed.

(** A search whose term cannot be built sends no request. *)
Lemma search_Raise (svc : Service) (self : AuthorSearch.t) (w : World)
    (e : exn) :
  AuthorSearch.build_search_term self = Raise e ->
  AuthorSearch.search svc self w = (Raise e, w).
Proof.
  intros Hterm. unfold AuthorSearch.search, bind, lift. now rewrite Hterm.
Qed.

Section AbstractRuns.
Context `{RT : Runtime}.

(** What [is_first_author] on the full record does, by the candidates. *)
Lemma abstract_is_first_author_run (self : PaperAbstract.t) (author : str)
    (w : World) :
  PaperAbstract.is_first_author self author w
  = match candidates self author with
    | [entry] =>
        (Ok (bool_decide
               (head (PaperAbstract.extract_authorship self) = Some entry)
             || has_key entry (u "EqualContrib")), w)
    | found =>
        (Ok false,
         {| requests := requests w;
            stdout := stdout w ++ [PrintFound (length found)] |})
    end.
Proof.
  unfold PaperAbstract.is_first_author, bind, lift.
  rewrite matching_candidates.
  destruct (candidates self author) as [|entry [|other found]] eqn:Hcand;
    try reflexivity.
  cbn [length Nat.eqb negb]. unfold first_item, item.
  destruct (PaperAbstract.extract_authorship self) as [|a0 rest] eqn:Hlist.
  { unfold candidates in Hcand. rewrite Hlist in Hcand. discriminate. }
  cbn. unfold ret. do 3 f_equal.
  apply bool_decide_ext. split; congruence.
Qed.

(** [is_first_author] on the full record always returns a boolean, the
    same whatever was printed or requested before, and sends no request. *)
Lemma abstract_is_first_author_runs (self : PaperAbstract.t) (author : str) :
  exists b : bool, forall w : World, exists out : list Line,
    PaperAbstract.is_first_author self author w
    = (Ok b, {| requests := requests w; stdout := stdout w ++ out |}).
Proof.
  destruct (candidates self author) as [|entry [|other found]] eqn:Hcand.
  - exists false. intros w. eexists.
    rewrite abstract_is_first_author_run, Hcand. reflexivity.
  - eexists. intros w. exists [].
    rewrite abstract_is_first_author_run, Hcand, app_nil_r.
    destruct w. reflexivity.
  - exists false. intros w. eexists.
    rewrite abstract_is_first_author_run, Hcand. reflexivity.
Qed.

End AbstractRuns.

Section AssessFacts.
Context `{RT : Runtime} (svc : Service).

(** C4, as the code has it. For a trainee whose search returns a count
    that [int] reads as 0, [assess_trainee] returns at once: the statistics
    are the empty ones with the count of the search under [paper_count],
    its identifiers under [pmids] and the text
    [Search returned zero results] under [error]; the search is the only
    request sent, so no summary and no full record is fetched; and the
    paper content stays empty. *)
Theorem assess_trainee_zero_results (row : Row) (with_initial : bool)
    (w0 w : World) (self : AuthorSearch.t) (term : str)
    (Hinit : AuthorSearch.__init__ row with_initial w0 = (Ok self, w))
    (Hterm : AuthorSearch.build_search_term self = Ok term)
    (Hzero : py_int (count (esearchresult (esearch svc term))) = Ok 0) :
  exists (stats : Stats.t) (self' : AuthorSearch.t) (w' : World),
    AuthorSearch.assess_trainee svc self w = (Ok (stats, self'), w')
    /\ AuthorSearch.trainee_stats self' = stats
    /\ stats
       = {| Stats.research_papers := 0;
            Stats.first_author_research_papers := 0;
            Stats.first_author_journals := [];
            Stats.reviews := 0;
            Stats.first_author_reviews := 0;
            Stats.paper_count :=
              Some (count (esearchresult (esearch svc term)));
            Stats.pmids := Some (idlist (esearchresult (esearch svc term)));
            Stats.error := Some (u "Search returned zero results") |}
    /\ AuthorSearch.paper_content self' = []
    /\ requests w' = requests w0 ++ [ESEARCH term].
Proof.
  destruct (init_fresh _ _ _ _ _ Hinit) as (Hst & _ & _ & Hpc & Hreq).
  destruct (search_Ok svc self w term Hterm) as (w' & Hsearch & Hreq').
  unfold AuthorSearch.assess_trainee.
  rewrite (bind_Ok _ _ _ _ _ Hsearch). cbn -[u].
  unfold bind, lift. cbn -[u]. rewrite Hzero. cbn -[u].
  eexists _, _, w'. split; [reflexivity|].
  cbn -[u]. rewrite Hst, Hpc, Hreq', Hreq. repeat split.
Qed.

(** C5, as the code has it. For a trainee whose search returns a count
    that [int] reads as more than [TOO_MANY_PAPERS], [assess_trainee]
    returns the empty statistics with the count of the search under
    [paper_count], its identifiers under [pmids] and the text
    [Search returned too many results] under [error]; the search is the
    only request sent, and the paper content stays empty. *)
Theorem assess_trainee_too_many_results (row : Row) (with_initial : bool)
    (w0 w : World) (self : AuthorSearch.t) (term : str) (n : Z)
    (Hinit : AuthorSearch.__init__ row with_initial w0 = (Ok self, w))
    (Hterm : AuthorSearch.build_search_term self = Ok term)
    (Hcount : py_int (count (esearchresult (esearch svc term))) = Ok n)
    (Hmany : TOO_MANY_PAPERS < n) :
  exists (stats : Stats.t) (self' : AuthorSearch.t) (w' : World),
    AuthorSearch.assess_trainee svc self w = (Ok (stats, self'), w')
    /\ AuthorSearch.trainee_stats self' = stats
    /\ stats
       = {| Stats.research_papers := 0;
            Stats.first_author_research_papers := 0;
            Stats.first_author_journals := [];
            Stats.reviews := 0;
            Stats.first_author_reviews := 0;
            Stats.paper_count :=
              Some (count (esearchresult (esearch svc term)));
            Stats.pmids := Some (idlist (esearchresult (esearch svc term)));
            Stats.error := Some (u "Search returned too many results") |}
    /\ AuthorSearch.paper_content self' = []
    /\ requests w' = requests w0 ++ [ESEARCH term].
Proof.
  destruct (init_fresh _ _ _ _ _ Hinit) as (Hst & _ & _ & Hpc & Hreq).
  destruct (search_Ok svc self w term Hterm) as (w' & Hsearch & Hreq').
  unfold AuthorSearch.assess_trainee.
  rewrite (bind_Ok _ _ _ _ _ Hsearch). cbn -[u].
  unfold bind, lift. cbn -[u]. rewrite Hcount. cbn -[u].
  unfold TOO_MANY_PAPERS in *.
  destruct (Z.eqb_spec n 0) as [->|_]; [lia|].
  cbn -[u]. rewrite ?Hcount. cbn -[u].
  destruct (Z.ltb_spec 50 n) as [_|Hle]; [|lia].
  eexists _, _, w'. split; [reflexivity|].
  cbn -[u]. rewrite Hst, Hpc, Hreq', Hreq. repeat split.
Qed.

Lemma fetch_summaries_Ok (self : AuthorSearch.t) (w : World)
    (found : SearchResult) (stored : gmap str PaperSummary.t) :
  let summaries_json := esummary svc (webenv found) (querykey found) in
  AuthorSearch.search_results self = Some found ->
  AuthorSearch.store_summaries summaries_json (uids summaries_json)
    (AuthorSearch.summaries self) = Ok stored ->
  AuthorSearch.fetch_summaries svc self w
  = (Ok (AuthorSearch.set_summaries self (uids summaries_json) stored),
     {| requests := requests w ++ [ESUMMARY (webenv found) (querykey found)];
        stdout := stdout w |}).
Proof.
  intros summaries_json Hfound Hstored.
  unfold AuthorSearch.fetch_summaries, AuthorSearch._params_with_history.
  rewrite Hfound. unfold bind, lift, send. cbn.
  fold summaries_json. now rewrite Hstored.
Qed.

Lemma fetch_abstracts_Ok (self : AuthorSearch.t) (w : World)
    (found : SearchResult) (stored : gmap (option str) PaperAbstract.t) :
  AuthorSearch.search_results self = Some found ->
  AuthorSearch.store_abstracts
    (findall (u "MedlineCitation")
       (efetch svc (webenv found) (querykey found)))
    (AuthorSearch.abstracts self) = Ok stored ->
  AuthorSearch.fetch_abstracts svc self w
  = (Ok (AuthorSearch.set_abstracts self stored),
     {| requests := requests w ++ [EFETCH (webenv found) (querykey found)];
        stdout := stdout w |}).
Proof.
  intros Hfound Hstored.
  unfold AuthorSearch.fetch_abstracts, AuthorSearch._params_with_history.
  rewrite Hfound. unfold bind, lift, send. cbn.
  now rewrite Hstored.
Qed.

(** One pass of the loop on a paper whose two records are stored and whose
    first authorship is [first_author]. *)
Lemma assess_paper_Ok (pmid : str) (self : AuthorSearch.t) (w : World)
    (this_summary : PaperSummary.t) (this_abstract : PaperAbstract.t)
    (first_author : bool) :
  AuthorSearch.summaries self !! pmid = Some this_summary ->
  AuthorSearch.abstracts self !! Some pmid = Some this_abstract ->
  (PaperSummary.is_first_author this_summary (AuthorSearch.trainee self)
   = Ok true /\ first_author = true
   \/ PaperSummary.is_first_author this_summary (AuthorSearch.trainee self)
      = Ok false
      /\ fst (PaperAbstract.is_first_author this_abstract
                (AuthorSearch.trainee self) w) = Ok first_author) ->
  exists w',
    AuthorSearch.assess_paper pmid self w
    = (Ok (AuthorSearch.append_paper_content
             (AuthorSearch.set_trainee_stats self
                (Stats.count_paper (AuthorSearch.trainee_stats self)
                   (PaperSummary.is_review this_summary) first_author
                   (PaperSummary.journal_title this_summary)))
             (PaperSummary.data this_summary)), w')
    /\ requests w' = requests w.
Proof.
  intros Hsum Habs Hfirst. unfold AuthorSearch.assess_paper.
  erewrite bind_lift_Ok by (unfold getitem; now rewrite Hsum).
  erewrite bind_lift_Ok by (unfold getitem; now rewrite Habs).
  destruct Hfirst as [[Hby ->]|[Hby Hfull]].
  - rewrite (bind_lift_Ok _ _ _ _ Hby).
    exists w. split; reflexivity.
  - rewrite (bind_lift_Ok _ _ _ _ Hby).
    destruct (abstract_is_first_author_runs this_abstract
                (AuthorSearch.trainee self)) as (b & Hrun).
    destruct (Hrun w) as (out & Hw). rewrite Hw in Hfull.
    injection Hfull as ->.
    rewrite (bind_Ok _ _ _ _ _ Hw). eexists. split; reflexivity.
Qed.

(** C7. For a trainee whose search returns one paper, with its summary
    and its full record delivered, that is no review and that either
    strategy finds first-authored, [assess_trainee] returns statistics with
    one research paper, one first-author research paper and the source of
    the summary as the one first-author journal; no review is counted, no
    error is set and the summary is the one entry of the paper content. *)
Theorem assess_trainee_one_first_author_paper (row : Row)
    (with_initial : bool) (w0 w : World) (self : AuthorSearch.t)
    (term pmid : str) (doc : SummaryData)
    (stored : gmap (option str) PaperAbstract.t)
    (record : PaperAbstract.t) :
  let found := esearchresult (esearch svc term) in
  let summaries_json := esummary svc (webenv found) (querykey found) in
  let abstracts_xml := efetch svc (webenv found) (querykey found) in
  let this_summary :=
    {| PaperSummary.pmid := pmid; PaperSummary.data := doc |} in
  forall
    (Hinit : AuthorSearch.__init__ row with_initial w0 = (Ok self, w))
    (Hterm : AuthorSearch.build_search_term self = Ok term)
    (Hcount : py_int (count found) = Ok 1)
    (Huids : uids summaries_json = [pmid])
    (Hdoc : docs summaries_json !! pmid = Some doc)
    (Hstored :
       AuthorSearch.store_abstracts
         (findall (u "MedlineCitation") abstracts_xml) ∅ = Ok stored)
    (Hrecord : stored !! Some pmid = Some record)
    (Hresearch : PaperSummary.is_review this_summary = false)
    (Hfirst :
       PaperSummary.is_first_author this_summary (AuthorSearch.trainee self)
       = Ok true
       \/ (PaperSummary.is_first_author this_summary
             (AuthorSearch.trainee self) = Ok false
           /\ fst (PaperAbstract.is_first_author record
                     (AuthorSearch.trainee self) w) = Ok true)),
  exists (stats : Stats.t) (self' : AuthorSearch.t) (w' : World),
    AuthorSearch.assess_trainee svc self w = (Ok (stats, self'), w')
    /\ AuthorSearch.trainee_stats self' = stats
    /\ Stats.research_papers stats = 1
    /\ Stats.first_author_research_papers stats = 1
    /\ Stats.first_author_journals stats = [source doc]
    /\ Stats.reviews stats = 0
    /\ Stats.first_author_reviews stats = 0
    /\ Stats.error stats = None
    /\ AuthorSearch.paper_content self' = [doc]
    /\ requests w'
       = requests w0
         ++ [ESEARCH term; ESUMMARY (webenv found) (querykey found);
             EFETCH (webenv found) (querykey found)].
Proof.
  intros found summaries_json abstracts_xml this_summary
    Hinit Hterm Hcount Huids Hdoc Hstored Hrecord Hresearch Hfirst.
  destruct (init_fresh _ _ _ _ _ Hinit) as (Hst & Habs & Hsum & Hpc & Hreq).
  destruct (search_Ok svc self w term Hterm) as (w1 & Hsearch & Hreq1).
  set (self1 := AuthorSearch.set_search_results self found).
  set (self2 :=
         AuthorSearch.set_trainee_stats self1
           (Stats.set_search (AuthorSearch.trainee_stats self1)
              (count found) (idlist found))).
  set (stored_summaries := <[pmid := this_summary]> (∅ : gmap str PaperSummary.t)).
  set (self3 := AuthorSearch.set_summaries self2 [pmid] stored_summaries).
  set (self4 := AuthorSearch.set_abstracts self3 stored).
  assert (Hfetch1 :
    AuthorSearch.fetch_summaries svc self2 w1
    = (Ok self3,
       {| requests := requests w1 ++ [ESUMMARY (webenv found) (querykey found)];
          stdout := stdout w1 |})).
  { unfold self3. rewrite <- Huids.
    apply (fetch_summaries_Ok self2 w1 found); [reflexivity|].
    fold summaries_json. rewrite Huids. cbn -[u].
    rewrite Hsum. unfold getitem. now rewrite Hdoc. }
  match type of Hfetch1 with _ = (_, ?x) => set (w2 := x) in * end.
  assert (Hfetch2 :
    AuthorSearch.fetch_abstracts svc self3 w2
    = (Ok self4,
       {| requests := requests w2 ++ [EFETCH (webenv found) (querykey found)];
          stdout := stdout w2 |})).
  { apply (fetch_abstracts_Ok self3 w2 found); [reflexivity|].
    cbn -[u]. now rewrite Habs. }
  match type of Hfetch2 with _ = (_, ?x) => set (w3 := x) in * end.
  assert (Hfirst' :
    PaperSummary.is_first_author this_summary (AuthorSearch.trainee self4)
    = Ok true /\ true = true
    \/ PaperSummary.is_first_author this_summary (AuthorSearch.trainee self4)
       = Ok false
       /\ fst (PaperAbstract.is_first_author record
                 (AuthorSearch.trainee self4) w3) = Ok true).
  { destruct Hfirst as [Hby|[Hby Hfull]]; [left; now split|right].
    split; [exact Hby|].
    destruct (abstract_is_first_author_runs record
                (AuthorSearch.trainee self)) as (b & Hrun).
    destruct (Hrun w) as (out & Hw). rewrite Hw in Hfull.
    injection Hfull as ->.
    destruct (Hrun w3) as (out3 & Hw3).
    change (AuthorSearch.trainee self4) with (AuthorSearch.trainee self).
    now rewrite Hw3. }
  destruct (assess_paper_Ok pmid self4 w3 this_summary record true)
    as (w4 & Hpaper & Hreq4); [apply lookup_insert_eq|exact Hrecord|exact Hfirst'|].
  unfold AuthorSearch.assess_trainee.
  rewrite (bind_Ok _ _ _ _ _ Hsearch). cbn beta iota.
  erewrite bind_lift_Ok by reflexivity. cbv zeta. fold self1 self2.
  erewrite bind_lift_Ok by reflexivity.
  rewrite (bind_lift_Ok _ _ _ _ Hcount). cbn [Z.eqb].
  erewrite bind_lift_Ok by reflexivity.
  rewrite (bind_lift_Ok _ _ _ _ Hcount).
  change (TOO_MANY_PAPERS <? 1) with false. cbn iota.
  rewrite (bind_Ok _ _ _ _ _ Hfetch1).
  rewrite (bind_Ok _ _ _ _ _ Hfetch2).
  erewrite bind_lift_Ok by reflexivity.
  cbn [AuthorSearch.assess_papers].
  rewrite (bind_Ok _ _ _ _ _ (bind_Ok _ _ _ _ _ Hpaper)).
  eexists _, _, w4. split; [reflexivity|].
  cbn -[u]. rewrite Hst, Hpc, Hresearch.
  rewrite Hreq4. unfold w3, w2. cbn -[u].
  rewrite Hreq1, Hreq, <- !app_assoc. repeat split.
Qed.

End AssessFacts.

(** ** The three outcomes on the sample service *)

Example sample_constructed :
  AuthorSearch.__init__ Sample.cavanaugh_row WITH_INITIAL Sample.world
  = (Ok Sample.cavanaugh, Sample.cavanaugh_world)
  /\ AuthorSearch.build_search_term Sample.cavanaugh
     = Ok Sample.cavanaugh_term.
Proof. split; vm_compute; reflexivity. Qed.

Lemma assess_trainee_zero_results_witness :
  exists (stats : Stats.t) (self' : AuthorSearch.t) (w' : World),
    AuthorSearch.assess_trainee (RT := Fragment.runtime)
      (Sample.service "0") Sample.cavanaugh Sample.cavanaugh_world
    = (Ok (stats, self'), w')
    /\ Stats.paper_count stats = Some (u "0")
    /\ Stats.error stats = Some (u "Search returned zero results")
    /\ AuthorSearch.paper_content self' = []
    /\ requests w' = [ESEARCH Sample.cavanaugh_term].
Proof.
  destruct (assess_trainee_zero_results (RT := Fragment.runtime)
              (Sample.service "0") Sample.cavanaugh_row WITH_INITIAL
              Sample.world Sample.cavanaugh_world Sample.cavanaugh
              Sample.cavanaugh_term eq_refl eq_refl eq_refl)
    as (stats & self' & w' & Hrun & _ & Hstats & Hpc & Hreq).
  exists stats, self', w'. subst stats.
  repeat split; first [assumption | reflexivity | exact Hreq].
Defined.

(** C4 as stated fails on the text of the error: with a count of 0 the
    statistics of the row carry [Search returned zero results], which is
    not [no results]. *)
Lemma zero_results_error_text :
  exists (stats : Stats.t) (w' : World),
    py_int (Runtime := Fragment.runtime) (u "0") = Ok 0
    /\ main_row (RT := Fragment.runtime) (Sample.service "0")
         Sample.cavanaugh_row Sample.world = (Ok (stats, []), w')
    /\ Stats.error stats = Some (u "Search returned zero results")
    /\ Stats.error stats <> Some (u "no results").
Proof.
  eexists _, _. split; [reflexivity|].
  split; [vm_compute; reflexivity|].
  split; [reflexivity|]. vm_compute. discriminate.
Qed.

Lemma assess_trainee_too_many_results_witness :
  exists (stats : Stats.t) (self' : AuthorSearch.t) (w' : World),
    AuthorSearch.assess_trainee (RT := Fragment.runtime)
      (Sample.service "51") Sample.cavanaugh Sample.cavanaugh_world
    = (Ok (stats, self'), w')
    /\ Stats.paper_count stats = Some (u "51")
    /\ Stats.error stats = Some (u "Search returned too many results")
    /\ AuthorSearch.paper_content self' = []
    /\ requests w' = [ESEARCH Sample.cavanaugh_term].
Proof.
  destruct (assess_trainee_too_many_results (RT := Fragment.runtime)
              (Sample.service "51") Sample.cavanaugh_row WITH_INITIAL
              Sample.world Sample.cavanaugh_world Sample.cavanaugh
              Sample.cavanaugh_term 51 eq_refl eq_refl eq_refl eq_refl)
    as (stats & self' & w' & Hrun & _ & Hstats & Hpc & Hreq).
  exists stats, self', w'. subst stats.
  repeat split; first [assumption | reflexivity | exact Hreq].
Defined.

(** C5 as stated fails on the text of the error: with a count of 51 the
    statistics of the row carry [Search returned too many results], which
    is not [too many results]. *)
Lemma too_many_results_error_text :
  exists (stats : Stats.t) (w' : World),
    py_int (Runtime := Fragment.runtime) (u "51") = Ok 51
    /\ TOO_MANY_PAPERS < 51
    /\ main_row (RT := Fragment.runtime) (Sample.service "51")
         Sample.cavanaugh_row Sample.world = (Ok (stats, []), w')
    /\ Stats.error stats = Some (u "Search returned too many results")
    /\ Stats.error stats <> Some (u "too many results").
Proof.
  eexists _, _. split; [reflexivity|]. split; [reflexivity|].
  split; [vm_compute; reflexivity|].
  split; [reflexivity|]. vm_compute. discriminate.
Qed.

(** The ceiling itself is not too many: 50 results are fetched. *)
Example assess_trainee_at_ceiling :
  requests
    (snd (AuthorSearch.assess_trainee (RT := Fragment.runtime)
            (Sample.service "50") Sample.cavanaugh Sample.cavanaugh_world))
  = [ ESEARCH Sample.cavanaugh_term;
      ESUMMARY (u "MCID_1") (u "1"); EFETCH (u "MCID_1") (u "1") ].
Proof. vm_compute. reflexivity. Qed.

Lemma assess_trainee_one_first_author_paper_witness :
  exists (stats : Stats.t) (self' : AuthorSearch.t) (w' : World),
    AuthorSearch.assess_trainee (RT := Fragment.runtime)
      (Sample.service "1") Sample.huxlin_search Sample.huxlin_world
    = (Ok (stats, self'), w')
    /\ Stats.research_papers stats = 1
    /\ Stats.first_author_research_papers stats = 1
    /\ Stats.first_author_journals stats = [u "J Neurosci"]
    /\ AuthorSearch.paper_content self'
       = [PaperSummary.data Sample.huxlin_summary].
Proof.
  assert (Hrecord :
    ({[ Some (u "101") := Sample.huxlin ]}
       : gmap (option str) PaperAbstract.t) !! Some (u "101")
    = Some Sample.huxlin) by apply lookup_singleton_eq.
  destruct (assess_trainee_one_first_author_paper (RT := Fragment.runtime)
              (Sample.service "1") Sample.huxlin_row WITH_INITIAL
              Sample.world Sample.huxlin_world Sample.huxlin_search
              Sample.huxlin_term (u "101")
              (PaperSummary.data Sample.huxlin_summary)
              {[ Some (u "101") := Sample.huxlin ]} Sample.huxlin
              eq_refl eq_refl eq_refl eq_refl eq_refl eq_refl Hrecord
              eq_refl (or_introl eq_refl))
    as (stats & self' & w' & Hrun & _ & Hr & Hf & Hj & _ & _ & _ & Hpc & _).
  exists stats, self', w'. repeat split; assumption.
Defined.

(** The full record alone decides: the summary lists the trainee second,
    the full record marks her as contributing equally. *)
Example assess_trainee_equal_contrib :
  let svc :=
    {| esearch := esearch (Sample.service "1");
       esummary := esummary (Sample.service "1");
       efetch := fun _ _ =>
         Elem (u "PubmedArticleSet") ∅ None
           [Sample.citation "101"
              [ Sample.author Sample.valid "Huxlin" "Krystel R";
                Sample.author Sample.equal_contrib "Cavanaugh" "Matthew R" ]]
    |} in
  let run :=
    AuthorSearch.assess_trainee (RT := Fragment.runtime) svc
      Sample.cavanaugh Sample.cavanaugh_world in
  (let? out := fst run in
   Ok (Stats.research_papers (fst out),
       Stats.first_author_research_papers (fst out),
       Stats.first_author_journals (fst out)))
  = Ok (1, 1, [u "J Neurosci"]).
Proof. vm_compute. reflexivity. Qed.

(** A summary without authors stops the assessment with [IndexError],
    whatever the full record says. *)
Example assess_trainee_summary_without_authors :
  let svc :=
    {| esearch := esearch (Sample.service "1");
       esummary := fun _ _ =>
         {| uids := [u "101"];
            docs :=
              {[ u "101" :=
                   Sample.summary [] [u "Journal Article"] (u "J Neurosci") ]}
         |};
       efetch := efetch (Sample.service "1") |} in
  fst (AuthorSearch.assess_trainee (RT := Fragment.runtime) svc
         Sample.huxlin_search Sample.huxlin_world)
  = Raise IndexError.
Proof. vm_compute. reflexivity. Qed.

(** A last name that flattens to the empty string (blanks, or a name with
    no ASCII letter or digit left) occurs in every name: the entry is a
    candidate for every trainee, and next to the right author it makes
    the record ambiguous. *)
Example abstract_blank_last_name :
  let record :=
    {| PaperAbstract.pmid := Some (u "104");
       PaperAbstract.data :=
         Sample.citation "104"
           [ Sample.author Sample.valid "Huxlin" "Krystel R";
             Sample.author Sample.valid "  " "Matthew R" ] |} in
  length (PaperAbstract.extract_authorship record) = 2%nat
  /\ PaperAbstract.is_first_author (RT := Fragment.runtime) record
       (u "Huxlin K") Sample.world
     = (Ok false, {| requests := []; stdout := [PrintFound 2] |}).
Proof. split; vm_compute; reflexivity. Qed.

(** * Further properties *)

(** ** Blanks around a name *)

Lemma lstrip_app_space (pre s : str) :
  Forall (fun c => is_space c = true) pre -> lstrip (pre ++ s) = lstrip s.
Proof. induction 1 as [|c pre Hc _ IH]; simpl; [reflexivity|]. now rewrite Hc. Qed.

Lemma lstrip_all_space (s : str) :
  Forall (fun c => is_space c = true) s -> lstrip s = [].
Proof.
  intros H. rewrite <- (app_nil_r s). now rewrite lstrip_app_space.
Qed.

Lemma rstrip_app_space (s post : str) :
  Forall (fun c => is_space c = true) post -> rstrip (s ++ post) = rstrip s.
Proof.
  intros H. unfold rstrip. rewrite rev_app_distr, lstrip_app_space;
    [reflexivity|].
  apply List.Forall_forall. intros c Hc. apply List.in_rev in Hc.
  revert c Hc. now apply List.Forall_forall.
Qed.

(** Stripping on the left keeps a suffix. *)
Lemma lstrip_suffix (s : str) :
  exists pre, s = pre ++ lstrip s /\ Forall (fun c => is_space c = true) pre.
Proof.
  induction s as [|c s (pre & Hs & Hpre)]; simpl.
  - now exists [].
  - destruct (is_space c) eqn:Hc.
    + exists (c :: pre). split; [simpl; congruence|now constructor].
    + now exists [].
Qed.

Lemma lstrip_head (s : str) (c : N) (r : str) :
  lstrip s = c :: r -> is_space c = false.
Proof.
  induction s as [|d s IH]; simpl; [discriminate|].
  destruct (is_space d) eqn:Hd; [exact IH|].
  now intros [= <- _].
Qed.

Lemma rstrip_prefix (s : str) :
  exists post, s = rstrip s ++ post /\ Forall (fun c => is_space c = true) post.
Proof.
  unfold rstrip. destruct (lstrip_suffix (rev s)) as (pre & Hs & Hpre).
  exists (rev pre). split.
  - rewrite <- rev_app_distr, <- Hs. symmetry. apply rev_involutive.
  - apply List.Forall_forall. intros c Hc. apply List.in_rev in Hc.
    revert c Hc. now apply List.Forall_forall.
Qed.

Lemma lstrip_app_kept (s post : str) :
  lstrip s <> [] -> lstrip (s ++ post) = lstrip s ++ post.
Proof.
  induction s as [|c s IH]; simpl; [congruence|].
  destruct (is_space c); [exact IH|reflexivity].
Qed.

Lemma str_strip_outer_space (pre x post : str) :
  Forall (fun c => is_space c = true) pre ->
  Forall (fun c => is_space c = true) post ->
  str_strip (pre ++ x ++ post) = str_strip x.
Proof.
  intros Hpre Hpost. unfold str_strip. rewrite lstrip_app_space by assumption.
  destruct (lstrip x) as [|c r] eqn:Hx.
  - destruct (lstrip_suffix x) as (sp & Hsp & Hall). rewrite Hx, app_nil_r in Hsp.
    subst sp. rewrite lstrip_all_space; [reflexivity|].
    apply Forall_app. now split.
  - rewrite lstrip_app_kept by congruence. rewrite Hx.
    now apply rstrip_app_space.
Qed.

(** X1. [flatten_name] does not see the whitespace around a name, whatever
    Unicode blanks it is made of. *)
Theorem flatten_name_outer_space `{RT : Runtime} (pre x post : str)
    (Hpre : Forall (fun c => is_space c = true) pre)
    (Hpost : Forall (fun c => is_space c = true) post) :
  flatten_name (pre ++ x ++ post) = flatten_name x.
Proof.
  unfold flatten_name. now rewrite str_strip_outer_space.
Qed.

(** A tab and a no-break space before the name, an ideographic space and
    a newline after it. *)
Lemma flatten_name_outer_space_witness :
  flatten_name (RT := Fragment.runtime)
    ([9; 160]%N ++ u "Joyce J" ++ [12288; 10]%N)
  = flatten_name (RT := Fragment.runtime) (u "Joyce J").
Proof.
  apply (flatten_name_outer_space (RT := Fragment.runtime));
    repeat constructor.
Defined.

(** ** Names in ASCII *)

Lemma is_space_not_alnum (c : N) : is_space c = true -> is_alnum c = false.
Proof.
  intros Hs. destruct (is_alnum c) eqn:Ha; [|reflexivity].
  apply is_alnum_not_space in Ha. congruence.
Qed.

Lemma filter_alnum_space (pre : str) :
  Forall (fun c => is_space c = true) pre -> List.filter is_alnum pre = [].
Proof.
  induction 1 as [|c pre Hc _ IH]; simpl; [reflexivity|].
  now rewrite (is_space_not_alnum c Hc).
Qed.

(** Stripping removes no letter and no digit. *)
Lemma filter_alnum_str_strip (s : str) :
  List.filter is_alnum (str_strip s) = List.filter is_alnum s.
Proof.
  unfold str_strip.
  destruct (lstrip_suffix s) as (pre & Hs & Hpre).
  destruct (rstrip_prefix (lstrip s)) as (post & Ht & Hpost).
  rewrite Hs at 2. rewrite Ht at 2.
  rewrite !List.filter_app, (filter_alnum_space pre Hpre),
    (filter_alnum_space post Hpost).
  now rewrite app_nil_r.
Qed.

Lemma str_strip_sublist (P : N -> Prop) (s : str) :
  Forall P s -> Forall P (str_strip s).
Proof.
  intros H. unfold str_strip.
  destruct (lstrip_suffix s) as (pre & Hs & _).
  destruct (rstrip_prefix (lstrip s)) as (post & Ht & _).
  rewrite Hs in H. apply Forall_app in H as [_ H].
  rewrite Ht in H. now apply Forall_app in H as [H _].
Qed.

Lemma ascii_lower_ascii (c : N) :
  is_ascii c = true -> is_ascii (ascii_lower c) = true.
Proof.
  unfold ascii_lower, is_ascii, is_ascii_upper. intros H.
  destruct ((65 <=? c)%N && (c <=? 90)%N) eqn:Hup; [|exact H].
  code_points. lia.
Qed.

Lemma is_alnum_ascii_lower (c : N) : is_alnum (ascii_lower c) = is_alnum c.
Proof.
  unfold ascii_lower, is_ascii_upper.
  destruct ((65 <=? c)%N && (c <=? 90)%N) eqn:Hup; [|reflexivity].
  unfold is_alnum. rewrite Hup, orb_true_r.
  apply andb_true_iff in Hup as [H1 H2].
  apply N.leb_le in H1, H2.
  replace ((97 <=? c + 32)%N) with true by (symmetry; apply N.leb_le; lia).
  replace ((c + 32 <=? 122)%N) with true by (symmetry; apply N.leb_le; lia).
  now rewrite orb_true_r.
Qed.

Lemma filter_alnum_map_lower (s : str) :
  List.filter is_alnum (map ascii_lower s)
  = map ascii_lower (List.filter is_alnum s).
Proof.
  induction s as [|c s IH]; simpl; [reflexivity|].
  rewrite is_alnum_ascii_lower. destruct (is_alnum c); simpl; congruence.
Qed.

(** X2. On ASCII text [flatten_name] keeps the letters and the digits, in
    their order and lowered, and drops every other character wherever it
    stands, over any runtime whose tables satisfy [UnicodeLaws]. *)
Theorem flatten_name_ascii `{RT : Runtime} (UL : UnicodeLaws RT) (x : str)
    (Hascii : Forall (fun c => is_ascii c = true) x) :
  flatten_name x = map ascii_lower (List.filter is_alnum x).
Proof.
  pose proof (str_strip_sublist _ x Hascii) as Hstrip.
  assert (Hlow : Forall (fun c => is_ascii c = true)
                   (map ascii_lower (str_strip x))).
  { apply List.Forall_forall. intros c Hc.
    apply List.in_map_iff in Hc as (d & <- & Hd).
    apply ascii_lower_ascii. revert d Hd. now apply List.Forall_forall. }
  unfold flatten_name, strip_accents.
  rewrite (lower_ascii _ Hstrip), (NFD_ascii _ Hlow).
  unfold encode_ascii_ignore, re_sub_non_alnum.
  rewrite (filter_fixed is_ascii _ Hlow).
  now rewrite filter_alnum_map_lower, filter_alnum_str_strip.
Qed.

Lemma flatten_name_ascii_witness :
  flatten_name (RT := Fragment.runtime) (u " O'Neill-Smith, E. 3rd ")
  = map ascii_lower (List.filter is_alnum (u " O'Neill-Smith, E. 3rd ")).
Proof.
  apply (flatten_name_ascii (RT := Fragment.runtime) fragment_laws).
  vm_compute. repeat constructor.
Defined.

(** X3. Whatever the name, [flatten_name] returns only digits and the
    letters [a] to [z]: the capitals that the regular expression would let
    through never reach it, over any runtime whose tables satisfy
    [UnicodeLaws]. *)
Theorem flatten_name_alphabet `{RT : Runtime} (UL : UnicodeLaws RT)
    (x : str) (c : N) (Hc : In c (flatten_name x)) :
  (48 <= c <= 57)%N \/ (97 <= c <= 122)%N.
Proof.
  pose proof (NFD_lower_no_capital _ _ (flatten_name_from_NFD x c Hc)) as Hup.
  pose proof (flatten_name_alnum x) as Hal.
  rewrite List.Forall_forall in Hal. specialize (Hal c Hc).
  unfold is_alnum, is_ascii_upper in *. code_points. lia.
Qed.

Lemma flatten_name_alphabet_witness :
  (48 <= 107 <= 57)%N \/ (97 <= 107 <= 122)%N.
Proof.
  apply (flatten_name_alphabet (RT := Fragment.runtime) fragment_laws
           (u "Mc" ++ [8490%N]) 107%N).
  vm_compute. auto.
Defined.

(** ** Formatting a name *)

Lemma str_strip_nil_iff (s : str) :
  str_strip s = [] <-> Forall (fun c => is_space c = true) s.
Proof.
  split.
  - intros H. unfold str_strip in H.
    destruct (lstrip_suffix s) as (pre & Hs & Hpre).
    destruct (rstrip_prefix (lstrip s)) as (post & Ht & Hpost).
    rewrite H in Ht. cbn in Ht. rewrite Hs, Ht.
    apply Forall_app. now split.
  - intros H. unfold str_strip. now rewrite (lstrip_all_space s H).
Qed.

Lemma str_strip_head (s : str) (c : N) (r : str) :
  str_strip s = c :: r -> is_space c = false.
Proof.
  unfold str_strip. intros H.
  destruct (rstrip_prefix (lstrip s)) as (post & Ht & _).
  rewrite H in Ht. cbn in Ht. exact (lstrip_head s c _ Ht).
Qed.

(** X4. [format_name] on strings. With the initial it raises [IndexError]
    exactly when the first name is empty or all blanks; otherwise it
    returns the stripped last name, one space and the first character of
    the stripped first name, which is no blank. Without the initial it
    returns the stripped last name and never looks at the first name. A
    last name that is no string raises [AttributeError] either way. *)
Theorem format_name_strings (last first : str) :
  (format_name (Str last) (Str first) true = Raise IndexError
   <-> Forall (fun c => is_space c = true) first)
  /\ (forall c r, str_strip first = c :: r ->
        format_name (Str last) (Str first) true
        = Ok (str_strip last ++ u " " ++ [c])
        /\ is_space c = false)
  /\ (forall other : cell,
        format_name (Str last) other false = Ok (str_strip last))
  /\ (forall (x other : cell) (with_initial : bool),
        (forall s, x <> Str s) ->
        format_name x other with_initial = Raise AttributeError).
Proof.
  repeat split.
  - unfold format_name. cbn [cell_strip result_bind]. unfold first_item, item.
    intros H. apply str_strip_nil_iff.
    destruct (str_strip first); [reflexivity|discriminate].
  - intros H. apply str_strip_nil_iff in H.
    unfold format_name. cbn [cell_strip result_bind]. now rewrite H.
  - unfold format_name. cbn [cell_strip result_bind]. now rewrite H.
  - exact (str_strip_head first c r H).
  - intros x other [] Hx; destruct x; try reflexivity; now destruct (Hx s).
Qed.

(** ** The constructor *)

(** X5. [_parse_trainee_mentor], and with it the constructor, raises in
    these cases only: the column [LastName], [FirstName] or [ThesisMentor]
    is absent ([AttributeError]), or formatting the trainee raises. No
    mentor cell and no location make it raise. *)
Theorem parse_trainee_mentor_raises_iff (row : Row) (with_initial : bool)
    (e : exn) :
  AuthorSearch._parse_trainee_mentor row with_initial = Raise e
  <-> (e = AttributeError /\ (LastName row = None \/ FirstName row = None))
      \/ exists last first,
           LastName row = Some last /\ FirstName row = Some first
           /\ (format_name last first with_initial = Raise e
               \/ (exists who, format_name last first with_initial = Ok who)
                  /\ ThesisMentor row = None /\ e = AttributeError).
Proof.
  unfold AuthorSearch._parse_trainee_mentor.
  destruct (LastName row) as [last|]; cbn [getattr result_bind].
  2:{ split; [intros [= <-]; left; auto|].
      intros [[-> _]|(l & f & H & _)]; [reflexivity|discriminate]. }
  destruct (FirstName row) as [first|]; cbn [getattr result_bind].
  2:{ split; [intros [= <-]; left; auto|].
      intros [[-> _]|(l & f & _ & H & _)]; [reflexivity|discriminate]. }
  destruct (format_name last first with_initial) as [who|e'] eqn:Hname;
    cbn [result_bind].
  2:{ split.
      - intros [= <-]. right. exists last, first. auto.
      - intros [[_ [H|H]]|(l & f & [= <-] & [= <-] & H)]; try discriminate.
        rewrite Hname in H. destruct H as [H|[[w H] _]]; congruence. }
  destruct (ThesisMentor row) as [advisor|]; cbn [getattr result_bind].
  - split; [discriminate|].
    intros [[_ [H|H]]|(l & f & [= <-] & [= <-] & H)]; try discriminate.
    rewrite Hname in H. destruct H as [H|(_ & H & _)]; discriminate.
  - split.
    + intros [= <-]. right. exists last, first. repeat split; try reflexivity.
      right. repeat split. now exists who.
    + intros [[-> _]|(l & f & [= <-] & [= <-] & H)]; [reflexivity|].
      rewrite Hname in H. destruct H as [H|(_ & _ & ->)];
        [discriminate|reflexivity].
Qed.

(** ** The mentor cell *)

Lemma split_on_no_sep (sep : N) (s : str) :
  ~ In sep s -> split_on sep s = [s].
Proof.
  induction s as [|c s IH]; simpl; [reflexivity|]. intros Hn.
  destruct (N.eqb_spec c sep) as [->|_]; [destruct Hn; now left|].
  rewrite IH; [reflexivity|]. intros H. apply Hn. now right.
Qed.

Lemma split_on_sep (sep : N) (a b : str) :
  ~ In sep a -> split_on sep (a ++ sep :: b) = a :: split_on sep b.
Proof.
  induction a as [|c a IH]; simpl; intros Hn.
  - now rewrite N.eqb_refl.
  - destruct (N.eqb_spec c sep) as [->|_]; [destruct Hn; now left|].
    rewrite IH; [reflexivity|]. intros H. apply Hn. now right.
Qed.

(** X6. The mentor cell as a string. Without a comma the mentor is the
    cell as it stands, blanks included. With a comma the mentor is
    [format_name] of the text before the first comma and the text between
    the first and the second; what follows a second comma is not read. *)
Theorem parse_mentor_string (with_initial : bool) (a b rest : str)
    (Ha : ~ In 44%N a) (Hb : ~ In 44%N b) :
  AuthorSearch.parse_mentor (Str a) with_initial = Ok a
  /\ AuthorSearch.parse_mentor (Str (a ++ 44%N :: b)) with_initial
     = format_name (Str a) (Str b) with_initial
  /\ AuthorSearch.parse_mentor (Str (a ++ 44%N :: b ++ 44%N :: rest))
       with_initial
     = format_name (Str a) (Str b) with_initial.
Proof.
  unfold AuthorSearch.parse_mentor. cbn [cell_split result_bind].
  repeat split.
  - now rewrite (split_on_no_sep 44 a Ha).
  - rewrite (split_on_sep 44 a b Ha), (split_on_no_sep 44 b Hb). reflexivity.
  - rewrite (split_on_sep 44 a _ Ha), (split_on_sep 44 b rest Hb).
    destruct (split_on 44 rest); reflexivity.
Qed.

Lemma parse_mentor_string_witness :
  AuthorSearch.parse_mentor (Str (u " Ellmann ")) true = Ok (u " Ellmann ")
  /\ AuthorSearch.parse_mentor
       (Str (u " Ellmann " ++ 44%N :: u " Richard")) true
     = format_name (Str (u " Ellmann ")) (Str (u " Richard")) true
  /\ AuthorSearch.parse_mentor
       (Str (u " Ellmann " ++ 44%N :: u " Richard" ++ 44%N :: u " PhD")) true
     = format_name (Str (u " Ellmann ")) (Str (u " Richard")) true.
Proof.
  apply (parse_mentor_string true (u " Ellmann ") (u " Richard") (u " PhD"));
    vm_compute; intuition discriminate.
Defined.

(** ** The search term *)

(** X7. The term [search] builds. It starts with the trainee and the
    author tag, followed by the mentor and the author tag when there is a
    mentor that is not the empty string. A location that is [None], the
    empty string, 0 or [False] adds nothing to it; a location that is a
    string with text adds the text and the affiliation tag. Building
    raises exactly when the location counts as true and is no string, and
    then it raises [TypeError]. *)
Theorem build_search_term_raises_iff (self : AuthorSearch.t) :
  let base :=
    AuthorSearch.trainee self ++ ATAG
    ++ match AuthorSearch.mentor self with
       | Some (c :: m) => (c :: m) ++ ATAG
       | _ => []
       end in
  (forall e,
     AuthorSearch.build_search_term self = Raise e
     <-> e = TypeError
         /\ exists loc, AuthorSearch.location self = Some loc
                        /\ cell_truthy loc = true
                        /\ forall s, loc <> Str s)
  /\ (forall term,
        AuthorSearch.build_search_term self = Ok term ->
        exists rest, term = AuthorSearch.trainee self ++ ATAG ++ rest)
  /\ (AuthorSearch.location self = None
      \/ AuthorSearch.location self = Some (Str [])
      \/ AuthorSearch.location self = Some (Num 0)
      \/ AuthorSearch.location self = Some (Bool false) ->
      AuthorSearch.build_search_term self = Ok base)
  /\ (forall c s,
        AuthorSearch.location self = Some (Str (c :: s)) ->
        AuthorSearch.build_search_term self
        = Ok (base ++ (c :: s) ++ LTAG)).
Proof.
  intros base.
  assert (Hbase :
    match AuthorSearch.mentor self with
    | Some (c :: m) =>
        (AuthorSearch.trainee self ++ ATAG) ++ (c :: m) ++ ATAG
    | _ => AuthorSearch.trainee self ++ ATAG
    end = base).
  { unfold base. destruct (AuthorSearch.mentor self) as [[|c m]|];
      rewrite <- ?app_assoc, ?app_nil_r; reflexivity. }
  unfold AuthorSearch.build_search_term. rewrite Hbase. clear Hbase.
  split; [|split; [|split]].
  - intros e. destruct (AuthorSearch.location self) as [loc|].
    2:{ split; [discriminate|]. intros (_ & loc & H & _). discriminate. }
    destruct loc as [|s|n|b]; cbn [cell_truthy cell_concat result_bind].
    + split.
      * intros [= <-]. split; [reflexivity|]. exists NaN.
        repeat split. discriminate.
      * now intros [-> _].
    + split.
      * destruct (negb (bool_decide (s = []))); discriminate.
      * intros (_ & loc & [= <-] & _ & H). now destruct (H s).
    + destruct (negb (n =? 0)) eqn:Hn; split.
      * intros [= <-]. split; [reflexivity|]. exists (Num n).
        repeat split; [exact Hn|discriminate].
      * now intros [-> _].
      * discriminate.
      * intros (_ & loc & [= <-] & H & _). cbn in H. congruence.
    + destruct b; split.
      * intros [= <-]. split; [reflexivity|]. exists (Bool true).
        repeat split. discriminate.
      * now intros [-> _].
      * discriminate.
      * intros (_ & loc & [= <-] & H & _). discriminate.
  - intros term.
    assert (Hpre : exists r, base = AuthorSearch.trainee self ++ ATAG ++ r).
    { unfold base. eexists. reflexivity. }
    destruct Hpre as (r & Hr).
    destruct (AuthorSearch.location self) as [loc|].
    2:{ intros [= <-]. now exists r. }
    destruct (cell_truthy loc).
    2:{ intros [= <-]. now exists r. }
    destruct loc; cbn; try discriminate.
    intros [= <-]. rewrite Hr. eexists. rewrite <- !app_assoc. reflexivity.
  - intros [ -> | [ -> | [ -> | -> ] ] ]; reflexivity.
  - intros c s ->. reflexivity.
Qed.

(** ** Identifiers of a paper *)

(** X8. [extract_identifier] returns the first identifier of the wanted
    type, and [None] exactly when the list has none of that type. *)
Theorem extract_identifier_first (articleIds : list ArticleId)
    (id_type : str) :
  (extract_identifier articleIds id_type = None
   <-> forall aid, In aid articleIds -> idtype aid <> id_type)
  /\ (forall aid,
        extract_identifier articleIds id_type = Some aid
        <-> exists before after,
              articleIds = before ++ aid :: after
              /\ idtype aid = id_type
              /\ forall b, In b before -> idtype b <> id_type).
Proof.
  unfold extract_identifier.
  induction articleIds as [|a l [IHn IHs]]; cbn [List.find].
  - split.
    + split; [intros _ aid []|reflexivity].
    + intros aid. split; [discriminate|].
      intros (before & after & H & _). destruct before; discriminate.
  - destruct (bool_decide_reflect (id_type = idtype a)) as [Heq|Hne].
    + split.
      * split; [discriminate|]. intros H.
        destruct (H a (or_introl eq_refl)). congruence.
      * intros aid. split.
        -- intros [= <-]. exists [], l. repeat split; [congruence|].
           intros b [].
        -- intros (before & after & H & Ht & Hb).
           destruct before as [|b before]; [now injection H as ->|].
           injection H as <- _. destruct (Hb a (or_introl eq_refl)).
           congruence.
    + split.
      * rewrite IHn. split.
        -- intros H aid [<-|Hin]; [congruence|now apply H].
        -- intros H aid Hin. apply H. now right.
      * intros aid. rewrite IHs. split.
        -- intros (before & after & -> & Ht & Hb).
           exists (a :: before), after. repeat split; [assumption|].
           intros b [<-|Hin]; [congruence|now apply Hb].
        -- intros (before & after & H & Ht & Hb).
           destruct before as [|b before].
           ++ injection H as <- _. congruence.
           ++ injection H as <- ->. exists before, after.
              repeat split; [assumption|]. intros c Hc. apply Hb. now right.
Qed.

(** ** The author list of the full record *)

Lemma author_dict_fold (l : list Element) (acc : gmap str str) (t : str) :
  let step :=
    fun (d : gmap str str) (a : Element) =>
      match text a with
      | Some (c :: s) => <[tag a := str_strip (c :: s)]> d
      | _ => d
      end in
  (fold_left step l acc !! t = None
   <-> acc !! t = None
       /\ forall a, In a l -> tag a = t ->
                    text a = None \/ text a = Some [])
  /\ (forall v,
        fold_left step l acc !! t = Some v ->
        acc !! t = Some v
        \/ exists a s, In a l /\ tag a = t /\ text a = Some s /\ s <> []
                       /\ v = str_strip s).
Proof.
  intros step. revert acc.
  induction l as [|a l IH]; intros acc; cbn [fold_left].
  - split; [|auto]. split; [intros H; split; [exact H|intros a []]|now intros [H _]].
  - destruct (IH (step acc a)) as [IHn IHs].
    assert (Hstep :
      step acc a
      = match text a with
        | Some (c :: s) => <[tag a := str_strip (c :: s)]> acc
        | _ => acc
        end) by reflexivity.
    clearbody step. rewrite Hstep in IHn, IHs. rewrite Hstep. clear Hstep.
    split.
    + rewrite IHn.
      destruct (text a) as [[|c s]|] eqn:Ht.
      * split; intros [Hacc Hall]; (split; [exact Hacc|]).
        -- intros b [<-|Hin] Hb; [now right|now apply Hall].
        -- intros b Hin. apply Hall. now right.
      * destruct (decide (tag a = t)) as [Hta|Hta].
        -- rewrite Hta, lookup_insert_eq. split; [intros [H _]; discriminate|].
           intros [_ Hall].
           destruct (Hall a (or_introl eq_refl) Hta); congruence.
        -- rewrite lookup_insert_ne by exact Hta.
           split; intros [Hacc Hall]; (split; [exact Hacc|]).
           ++ intros b [<-|Hin] Hb; [contradiction|now apply Hall].
           ++ intros b Hin. apply Hall. now right.
      * split; intros [Hacc Hall]; (split; [exact Hacc|]).
        -- intros b [<-|Hin] Hb; [now left|now apply Hall].
        -- intros b Hin. apply Hall. now right.
    + intros v Hv.
      destruct (IHs v Hv) as [Hacc|(b & s & Hin & Hb & Hs & Hne & ->)].
      * destruct (text a) as [[|c s]|] eqn:Ht; try (now left).
        destruct (decide (tag a = t)) as [Hta|Hta].
        -- rewrite Hta, lookup_insert_eq in Hacc. injection Hacc as <-.
           right. exists a, (c :: s). split; [now left|].
           repeat split; try assumption. discriminate.
        -- rewrite lookup_insert_ne in Hacc by exact Hta. now left.
      * right. exists b, s. split; [now right|]. repeat split; assumption.
Qed.

(** X9. The dictionary built from the children of an [Author] element. A
    tag is a key exactly when some child with that tag has text that is
    not empty; the value of a key is the stripped text of such a child;
    children without text leave no key. *)
Theorem author_dict_keys (author : Element) (t : str) :
  (PaperAbstract.author_dict author !! t = None
   <-> forall a, In a (children author) -> tag a = t ->
                 text a = None \/ text a = Some [])
  /\ (forall v,
        PaperAbstract.author_dict author !! t = Some v ->
        exists a s, In a (children author) /\ tag a = t
                    /\ text a = Some s /\ s <> [] /\ v = str_strip s).
Proof.
  unfold PaperAbstract.author_dict.
  destruct (author_dict_fold (children author) ∅ t) as [Hn Hs]. split.
  - rewrite Hn, lookup_empty. tauto.
  - intros v Hv. destruct (Hs v Hv) as [H|H]; [|exact H].
    rewrite lookup_empty in H. discriminate.
Qed.

(** X10. The author list holds one entry for each [Author] element whose
    children give a last name, in the order of the elements, and none for
    the others: it is the list of these elements, each turned into the
    dictionary of its children joined with its attributes. In an entry a
    child wins over an attribute of the same name, so the last name is the
    one of the child, and the mark [EqualContrib] is seen as an attribute
    and as a child alike. *)
Theorem extract_authorship_entries (self : PaperAbstract.t) :
  PaperAbstract.extract_authorship self
  = map (fun author => PaperAbstract.author_dict author ∪ attrib author)
      (List.filter
         (fun author =>
            has_key (PaperAbstract.author_dict author) (u "LastName"))
         (findall (u "Author") (PaperAbstract.data self)))
  /\ (forall entry,
        In entry (PaperAbstract.extract_authorship self)
        <-> exists author,
              In author (findall (u "Author") (PaperAbstract.data self))
              /\ is_Some (PaperAbstract.author_dict author !! u "LastName")
              /\ entry = PaperAbstract.author_dict author ∪ attrib author)
  /\ (forall author k,
        (PaperAbstract.author_dict author ∪ attrib author) !! k
        = match PaperAbstract.author_dict author !! k with
          | Some v => Some v
          | None => attrib author !! k
          end)
  /\ (forall entry,
        In entry (PaperAbstract.extract_authorship self) ->
        exists author,
          In author (findall (u "Author") (PaperAbstract.data self))
          /\ entry !! u "LastName"
             = PaperAbstract.author_dict author !! u "LastName"
          /\ forall k,
               has_key entry k
               = has_key (PaperAbstract.author_dict author) k
                 || has_key (attrib author) k)
  /\ (length (PaperAbstract.extract_authorship self)
      <= length (findall (u "Author") (PaperAbstract.data self)))%nat.
Proof.
  unfold PaperAbstract.extract_authorship.
  assert (Hin : forall entry l,
    In entry
      (flat_map
         (fun author =>
            if has_key (PaperAbstract.author_dict author) (u "LastName")
            then [PaperAbstract.author_dict author ∪ attrib author] else [])
         l)
    <-> exists author,
          In author l
          /\ is_Some (PaperAbstract.author_dict author !! u "LastName")
          /\ entry = PaperAbstract.author_dict author ∪ attrib author).
  { intros entry l. rewrite List.in_flat_map. unfold has_key.
    split; intros (author & Ha & H); exists author; (split; [exact Ha|]).
    - destruct (PaperAbstract.author_dict author !! u "LastName") eqn:Hl;
        [|destruct H].
      destruct H as [<-|[]]. split; [eauto|reflexivity].
    - destruct H as [[last Hl] ->]. rewrite Hl. now left. }
  split; [|split; [intros entry; apply Hin|split; [|split]]].
  - generalize (findall (u "Author") (PaperAbstract.data self)).
    induction l as [|a l IH]; cbn [flat_map List.filter map];
      [reflexivity|].
    destruct (has_key (PaperAbstract.author_dict a) (u "LastName"));
      cbn [app map]; now rewrite IH.
  - intros author k. rewrite lookup_union.
    destruct (PaperAbstract.author_dict author !! k),
      (attrib author !! k); reflexivity.
  - intros entry He. apply Hin in He as (author & Ha & [last Hl] & ->).
    exists author. split; [exact Ha|]. split.
    + rewrite Hl. now apply lookup_union_Some_l.
    + intros k. unfold has_key. rewrite lookup_union.
      destruct (PaperAbstract.author_dict author !! k),
        (attrib author !! k); reflexivity.
  - generalize (findall (u "Author") (PaperAbstract.data self)).
    induction l as [|a l IH]; cbn [flat_map length]; [lia|].
    rewrite length_app.
    destruct (has_key (PaperAbstract.author_dict a) (u "LastName"));
      cbn [length]; lia.
Qed.

Section CandidateFacts.
Context `{RT : Runtime}.

(** X11. An entry is a candidate exactly when its flattened last name is
    a contiguous part of the flattened name of the trainee: the last name
    need not be the whole of a word of the name. *)
Theorem candidate_iff_part (standard_author : str) (entry : gmap str str) :
  candidate standard_author entry = true
  <-> exists last before after,
        entry !! u "LastName" = Some last
        /\ standard_author = before ++ flatten_name last ++ after.
Proof.
  unfold candidate. destruct (entry !! u "LastName") as [last|].
  - rewrite str_in_substring. split.
    + intros (l & r & H). now exists last, l, r.
    + intros (last' & l & r & [= <-] & H). now exists l, r.
  - split; [discriminate|]. intros (last & _ & _ & H & _). discriminate.
Qed.

(** X12. An entry whose last name flattens to the empty string is a
    candidate for every trainee. When the author list holds such an entry,
    [is_first_author] on the full record can only return [True] with that
    entry as the one candidate: the entry of the trainee, if another,
    makes the answer [False]. *)
Theorem abstract_empty_last_name (self : PaperAbstract.t) (author last : str)
    (entry : gmap str str) (w : World)
    (Hentry : In entry (PaperAbstract.extract_authorship self))
    (Hlast : entry !! u "LastName" = Some last)
    (Hempty : flatten_name last = []) :
  In entry (candidates self author)
  /\ (fst (PaperAbstract.is_first_author self author w) = Ok true ->
      candidates self author = [entry]).
Proof.
  assert (Hin : In entry (candidates self author)).
  { unfold candidates. apply List.filter_In. split; [exact Hentry|].
    unfold candidate. rewrite Hlast, Hempty. apply str_in_empty. }
  split; [exact Hin|].
  rewrite abstract_is_first_author_run.
  destruct (candidates self author) as [|x [|y l]]; cbn; try discriminate.
  intros _. destruct Hin as [->|[]]. reflexivity.
Qed.

End CandidateFacts.

Lemma abstract_empty_last_name_witness :
  let record :=
    {| PaperAbstract.pmid := Some (u "104");
       PaperAbstract.data :=
         Sample.citation "104"
           [ Sample.author Sample.valid "Huxlin" "Krystel R";
             Sample.author Sample.valid "  " "Matthew R" ] |} in
  let entry : gmap str str :=
    {[ u "LastName" := []; u "ForeName" := u "Matthew R";
       u "ValidYN" := u "Y" ]} in
  In entry (candidates (RT := Fragment.runtime) record (u "Huxlin K"))
  /\ (fst (PaperAbstract.is_first_author (RT := Fragment.runtime) record
            (u "Huxlin K") Sample.world) = Ok true ->
      candidates (RT := Fragment.runtime) record (u "Huxlin K") = [entry]).
Proof.
  intros record entry.
  apply (abstract_empty_last_name (RT := Fragment.runtime) record
           (u "Huxlin K") [] entry Sample.world).
  - vm_compute. right. left. reflexivity.
  - apply lookup_insert_eq.
  - reflexivity.
Defined.

(** ** Storing the summaries and the full records *)

Lemma store_summaries_Ok (summaries_json : SummaryResult) (ids : list str)
    (acc : gmap str PaperSummary.t) :
  (forall id, In id ids -> is_Some (docs summaries_json !! id)) ->
  exists stored,
    AuthorSearch.store_summaries summaries_json ids acc = Ok stored
    /\ (forall id doc,
          In id ids -> docs summaries_json !! id = Some doc ->
          stored !! id
          = Some {| PaperSummary.pmid := id; PaperSummary.data := doc |})
    /\ (forall k, ~ In k ids -> stored !! k = acc !! k).
Proof.
  revert acc. induction ids as [|id rest IH]; intros acc Hall.
  - exists acc. repeat split. intros id doc [].
  - destruct (Hall id (or_introl eq_refl)) as [doc Hdoc].
    cbn [AuthorSearch.store_summaries]. unfold getitem. rewrite Hdoc.
    cbn [result_bind].
    destruct (IH (<[id := {| PaperSummary.pmid := id;
                            PaperSummary.data := doc |}]> acc))
      as (stored & Hrun & Hin & Hout).
    { intros k Hk. apply Hall. now right. }
    exists stored. split; [exact Hrun|]. split.
    + intros k d Hk Hd.
      destruct (decide (k ∈ rest)) as [Hr|Hr]; rewrite list_elem_of_In in Hr;
        [now apply Hin|].
      destruct Hk as [<-|Hk]; [|contradiction].
      rewrite (Hout id Hr), lookup_insert_eq. congruence.
    + intros k Hk. rewrite Hout by (intros H; apply Hk; now right).
      apply lookup_insert_ne. intros ->. apply Hk. now left.
Qed.

Lemma store_summaries_Raise (summaries_json : SummaryResult) (ids : list str)
    (acc : gmap str PaperSummary.t) :
  (exists id, In id ids /\ docs summaries_json !! id = None) ->
  AuthorSearch.store_summaries summaries_json ids acc = Raise KeyError.
Proof.
  revert acc. induction ids as [|id rest IH]; intros acc (k & Hk & Hnone).
  - destruct Hk.
  - cbn [AuthorSearch.store_summaries]. unfold getitem.
    destruct (docs summaries_json !! id) as [doc|] eqn:Hdoc; [|reflexivity].
    cbn [result_bind]. apply IH. exists k. split; [|exact Hnone].
    destruct Hk as [<-|Hk]; [congruence|exact Hk].
Qed.

Lemma store_abstracts_keep (cs : list Element)
    (acc stored : gmap (option str) PaperAbstract.t) (k : option str) :
  AuthorSearch.store_abstracts cs acc = Ok stored ->
  (forall c el, In c cs -> find (u "PMID") c = Some el -> text el <> k) ->
  stored !! k = acc !! k.
Proof.
  revert acc. induction cs as [|c cs IH]; intros acc.
  - now intros [= <-] _.
  - cbn [AuthorSearch.store_abstracts].
    destruct (find (u "PMID") c) as [el|] eqn:Hel; [|discriminate].
    cbn [getattr result_bind]. intros Hrun Hne.
    rewrite (IH _ Hrun) by (intros c' el' Hc'; apply Hne; now right).
    apply lookup_insert_ne. exact (Hne c el (or_introl eq_refl) Hel).
Qed.

Lemma store_abstracts_Ok (cs : list Element)
    (acc : gmap (option str) PaperAbstract.t) :
  (forall c, In c cs -> is_Some (find (u "PMID") c)) ->
  exists stored,
    AuthorSearch.store_abstracts cs acc = Ok stored
    /\ (forall before c after el,
          cs = before ++ c :: after ->
          find (u "PMID") c = Some el ->
          (forall c' el', In c' after -> find (u "PMID") c' = Some el' ->
                          text el' <> text el) ->
          stored !! text el
          = Some {| PaperAbstract.pmid := text el;
                    PaperAbstract.data := c |})
    /\ (forall k,
          (forall c el, In c cs -> find (u "PMID") c = Some el ->
                        text el <> k) ->
          stored !! k = acc !! k).
Proof.
  revert acc. induction cs as [|c cs IH]; intros acc Hall.
  - exists acc. repeat split.
    intros before c after el H. destruct before; discriminate.
  - destruct (Hall c (or_introl eq_refl)) as [el Hel].
    cbn [AuthorSearch.store_abstracts]. rewrite Hel.
    cbn [getattr result_bind].
    destruct (IH (<[text el := {| PaperAbstract.pmid := text el;
                                 PaperAbstract.data := c |}]> acc))
      as (stored & Hrun & Hin & Hout).
    { intros c' Hc'. apply Hall. now right. }
    exists stored. split; [exact Hrun|]. split.
    + intros before c0 after el0 Hcs Hel0 Hlater.
      destruct before as [|b before]; cbn in Hcs.
      * injection Hcs as <- <-.
        assert (el0 = el) as -> by congruence.
        rewrite (store_abstracts_keep _ _ _ _ Hrun Hlater).
        apply lookup_insert_eq.
      * injection Hcs as <- ->. now apply (Hin before c0 after el0).
    + intros k Hk.
      rewrite (store_abstracts_keep _ _ _ _ Hrun)
        by (intros c' el' Hc'; apply Hk; now right).
      apply lookup_insert_ne. exact (Hk c el (or_introl eq_refl) Hel).
Qed.

Lemma store_abstracts_Raise (cs : list Element)
    (acc : gmap (option str) PaperAbstract.t) :
  (exists c, In c cs /\ find (u "PMID") c = None) ->
  AuthorSearch.store_abstracts cs acc = Raise AttributeError.
Proof.
  revert acc. induction cs as [|c cs IH]; intros acc (k & Hk & Hnone).
  - destruct Hk.
  - cbn [AuthorSearch.store_abstracts].
    destruct (find (u "PMID") c) as [el|] eqn:Hel; [|reflexivity].
    cbn [getattr result_bind]. apply IH. exists k. split; [|exact Hnone].
    destruct Hk as [<-|Hk]; [congruence|exact Hk].
Qed.

Section FetchFacts.
Context `{RT : Runtime} (svc : Service).

(** X13. [fetch_summaries] after a search. The ESUMMARY request is sent
    with the cursor of the search, whatever follows. When every listed
    uid has a document, the uids become [pmids], each uid is stored with
    its own document, and the summaries under other keys, the statistics,
    the full records and the paper content are left alone. When some
    listed uid has no document, the call raises [KeyError]. *)
Theorem fetch_summaries_outcome (self : AuthorSearch.t) (w : World)
    (found : SearchResult)
    (Hfound : AuthorSearch.search_results self = Some found) :
  let summaries_json := esummary svc (webenv found) (querykey found) in
  let w1 :=
    {| requests := requests w ++ [ESUMMARY (webenv found) (querykey found)];
       stdout := stdout w |} in
  ((forall id, In id (uids summaries_json) ->
               is_Some (docs summaries_json !! id)) ->
   exists self',
     AuthorSearch.fetch_summaries svc self w = (Ok self', w1)
     /\ AuthorSearch.pmids self' = Some (uids summaries_json)
     /\ (forall id doc,
           In id (uids summaries_json) ->
           docs summaries_json !! id = Some doc ->
           AuthorSearch.summaries self' !! id
           = Some {| PaperSummary.pmid := id; PaperSummary.data := doc |})
     /\ (forall k, ~ In k (uids summaries_json) ->
                   AuthorSearch.summaries self' !! k
                   = AuthorSearch.summaries self !! k)
     /\ AuthorSearch.trainee_stats self' = AuthorSearch.trainee_stats self
     /\ AuthorSearch.abstracts self' = AuthorSearch.abstracts self
     /\ AuthorSearch.paper_content self' = AuthorSearch.paper_content self)
  /\ ((exists id, In id (uids summaries_json)
                  /\ docs summaries_json !! id = None) ->
      AuthorSearch.fetch_summaries svc self w = (Raise KeyError, w1)).
Proof.
  intros summaries_json w1. split.
  - intros Hall.
    destruct (store_summaries_Ok summaries_json (uids summaries_json)
                (AuthorSearch.summaries self) Hall)
      as (stored & Hrun & Hin & Hout).
    eexists. split.
    { exact (fetch_summaries_Ok svc self w found stored Hfound Hrun). }
    repeat split; assumption.
  - intros Hmiss.
    unfold AuthorSearch.fetch_summaries, AuthorSearch._params_with_history.
    rewrite Hfound. unfold bind, lift, send. cbn.
    fold summaries_json.
    now rewrite (store_summaries_Raise summaries_json _ _ Hmiss).
Qed.

(** X14. [fetch_abstracts] after a search. The EFETCH request is sent with
    the cursor of the search, whatever follows. When every citation holds
    a PMID, each citation is stored under the text of its first PMID,
    unless a later citation has the same text and replaces it; the full
    records under the keys of no citation and every other attribute of the
    object (statistics, summaries, pmids, paper content, trainee, mentor,
    location, search results) are left alone. When some citation holds no
    PMID, the call raises [AttributeError]. *)
Theorem fetch_abstracts_outcome (self : AuthorSearch.t) (w : World)
    (found : SearchResult)
    (Hfound : AuthorSearch.search_results self = Some found) :
  let citations :=
    findall (u "MedlineCitation")
      (efetch svc (webenv found) (querykey found)) in
  let w1 :=
    {| requests := requests w ++ [EFETCH (webenv found) (querykey found)];
       stdout := stdout w |} in
  ((forall c, In c citations -> is_Some (find (u "PMID") c)) ->
   exists self',
     AuthorSearch.fetch_abstracts svc self w = (Ok self', w1)
     /\ (forall before c after el,
           citations = before ++ c :: after ->
           find (u "PMID") c = Some el ->
           (forall c' el', In c' after -> find (u "PMID") c' = Some el' ->
                           text el' <> text el) ->
           AuthorSearch.abstracts self' !! text el
           = Some {| PaperAbstract.pmid := text el;
                     PaperAbstract.data := c |})
     /\ (forall k,
           (forall c el, In c citations -> find (u "PMID") c = Some el ->
                         text el <> k) ->
           AuthorSearch.abstracts self' !! k
           = AuthorSearch.abstracts self !! k)
     /\ AuthorSearch.trainee_stats self' = AuthorSearch.trainee_stats self
     /\ AuthorSearch.summaries self' = AuthorSearch.summaries self
     /\ AuthorSearch.pmids self' = AuthorSearch.pmids self
     /\ AuthorSearch.paper_content self' = AuthorSearch.paper_content self
     /\ AuthorSearch.trainee self' = AuthorSearch.trainee self
     /\ AuthorSearch.mentor self' = AuthorSearch.mentor self
     /\ AuthorSearch.location self' = AuthorSearch.location self
     /\ AuthorSearch.search_results self' = AuthorSearch.search_results self)
  /\ ((exists c, In c citations /\ find (u "PMID") c = None) ->
      AuthorSearch.fetch_abstracts svc self w = (Raise AttributeError, w1)).
Proof.
  intros citations w1. split.
  - intros Hall.
    destruct (store_abstracts_Ok citations (AuthorSearch.abstracts self) Hall)
      as (stored & Hrun & Hin & Hout).
    eexists. split.
    { exact (fetch_abstracts_Ok svc self w found stored Hfound Hrun). }
    repeat split; assumption.
  - intros Hmiss.
    unfold AuthorSearch.fetch_abstracts, AuthorSearch._params_with_history.
    rewrite Hfound. unfold bind, lift, send. cbn.
    fold citations.
    now rewrite (store_abstracts_Raise citations _ Hmiss).
Qed.

End FetchFacts.

(** ** Taking a run apart *)

Lemma bind_Ok_inv {A B} (m : M A) (k : A -> M B) (w w' : World) (b : B) :
  bind m k w = (Ok b, w') ->
  exists a w1, m w = (Ok a, w1) /\ k a w1 = (Ok b, w').
Proof.
  unfold bind. destruct (m w) as [[a|e] w1]; [|discriminate].
  intros H. now exists a, w1.
Qed.

Lemma lift_Ok_inv {A} (r : result A) (w w' : World) (a : A) :
  lift r w = (Ok a, w') -> r = Ok a /\ w' = w.
Proof. unfold lift. now intros [= -> ->]. Qed.

Lemma store_summaries_inv (summaries_json : SummaryResult) (ids : list str)
    (acc stored : gmap str PaperSummary.t) :
  AuthorSearch.store_summaries summaries_json ids acc = Ok stored ->
  forall id, In id ids -> is_Some (docs summaries_json !! id).
Proof.
  revert acc. induction ids as [|id rest IH]; intros acc Hrun k Hk;
    [destruct Hk|].
  cbn [AuthorSearch.store_summaries] in Hrun. unfold getitem in Hrun.
  destruct (docs summaries_json !! id) as [doc|] eqn:Hdoc; [|discriminate].
  destruct Hk as [<-|Hk]; [rewrite Hdoc; eauto|].
  exact (IH _ Hrun k Hk).
Qed.

Section LoopFacts.
Context `{RT : Runtime} (svc : Service).

Lemma fetch_summaries_inv (self self' : AuthorSearch.t) (w w' : World) :
  AuthorSearch.fetch_summaries svc self w = (Ok self', w') ->
  exists found stored,
    AuthorSearch.search_results self = Some found
    /\ AuthorSearch.store_summaries
         (esummary svc (webenv found) (querykey found))
         (uids (esummary svc (webenv found) (querykey found)))
         (AuthorSearch.summaries self) = Ok stored
    /\ self'
       = AuthorSearch.set_summaries self
           (uids (esummary svc (webenv found) (querykey found))) stored
    /\ requests w'
       = requests w ++ [ESUMMARY (webenv found) (querykey found)].
Proof.
  unfold AuthorSearch.fetch_summaries, AuthorSearch._params_with_history.
  destruct (AuthorSearch.search_results self) as [found|]; [|discriminate].
  unfold bind, lift, send. cbn.
  destruct (AuthorSearch.store_summaries _ _ _) as [stored|] eqn:Hst;
    [|discriminate].
  unfold ret. intros [= <- <-]. now exists found, stored.
Qed.

Lemma fetch_abstracts_inv (self self' : AuthorSearch.t) (w w' : World) :
  AuthorSearch.fetch_abstracts svc self w = (Ok self', w') ->
  exists found stored,
    AuthorSearch.search_results self = Some found
    /\ AuthorSearch.store_abstracts
         (findall (u "MedlineCitation")
            (efetch svc (webenv found) (querykey found)))
         (AuthorSearch.abstracts self) = Ok stored
    /\ self' = AuthorSearch.set_abstracts self stored
    /\ requests w'
       = requests w ++ [EFETCH (webenv found) (querykey found)].
Proof.
  unfold AuthorSearch.fetch_abstracts, AuthorSearch._params_with_history.
  destruct (AuthorSearch.search_results self) as [found|]; [|discriminate].
  unfold bind, lift, send. cbn.
  destruct (AuthorSearch.store_abstracts _ _) as [stored|] eqn:Hst;
    [|discriminate].
  unfold ret. intros [= <- <-]. now exists found, stored.
Qed.

(** Both fetches send their request before anything can go wrong. *)
Lemma fetch_summaries_requests (self : AuthorSearch.t) (w : World)
    (found : SearchResult) :
  AuthorSearch.search_results self = Some found ->
  requests (snd (AuthorSearch.fetch_summaries svc self w))
  = requests w ++ [ESUMMARY (webenv found) (querykey found)].
Proof.
  intros Hfound.
  unfold AuthorSearch.fetch_summaries, AuthorSearch._params_with_history.
  rewrite Hfound. unfold bind, lift, send. cbn.
  now destruct (AuthorSearch.store_summaries _ _ _).
Qed.

Lemma fetch_abstracts_requests (self : AuthorSearch.t) (w : World)
    (found : SearchResult) :
  AuthorSearch.search_results self = Some found ->
  requests (snd (AuthorSearch.fetch_abstracts svc self w))
  = requests w ++ [EFETCH (webenv found) (querykey found)].
Proof.
  intros Hfound.
  unfold AuthorSearch.fetch_abstracts, AuthorSearch._params_with_history.
  rewrite Hfound. unfold bind, lift, send. cbn.
  now destruct (AuthorSearch.store_abstracts _ _).
Qed.

(** One pass of the loop that returns had both records of the paper and an
    author in the summary, and counted the paper once. *)
Lemma assess_paper_inv (pmid : str) (self self' : AuthorSearch.t)
    (w w' : World) :
  AuthorSearch.assess_paper pmid self w = (Ok self', w') ->
  exists this_summary this_abstract first_author,
    AuthorSearch.summaries self !! pmid = Some this_summary
    /\ AuthorSearch.abstracts self !! Some pmid = Some this_abstract
    /\ authors (PaperSummary.data this_summary) <> []
    /\ self'
       = AuthorSearch.append_paper_content
           (AuthorSearch.set_trainee_stats self
              (Stats.count_paper (AuthorSearch.trainee_stats self)
                 (PaperSummary.is_review this_summary) first_author
                 (PaperSummary.journal_title this_summary)))
           (PaperSummary.data this_summary)
    /\ requests w' = requests w.
Proof.
  unfold AuthorSearch.assess_paper. intros Hrun.
  apply bind_Ok_inv in Hrun as (this_summary & w1 & H1 & Hrun).
  apply lift_Ok_inv in H1 as [Hsum ->].
  apply bind_Ok_inv in Hrun as (this_abstract & w1 & H2 & Hrun).
  apply lift_Ok_inv in H2 as [Habs ->].
  apply bind_Ok_inv in Hrun as (by_summary & w1 & H3 & Hrun).
  apply lift_Ok_inv in H3 as [Hby ->].
  apply bind_Ok_inv in Hrun as (first_author & w1 & H4 & Hrun).
  unfold ret in Hrun. injection Hrun as <- <-.
  exists this_summary, this_abstract, first_author.
  unfold getitem in Hsum, Habs.
  destruct (AuthorSearch.summaries self !! pmid) as [s|]; [|discriminate].
  destruct (AuthorSearch.abstracts self !! Some pmid) as [a|]; [|discriminate].
  injection Hsum as ->. injection Habs as ->.
  repeat split.
  - intros Hnil. unfold PaperSummary.is_first_author in Hby.
    rewrite Hnil in Hby. discriminate.
  - destruct by_summary.
    + now injection H4 as _ <-.
    + destruct (abstract_is_first_author_runs this_abstract
                  (AuthorSearch.trainee self)) as (b & Hb).
      destruct (Hb w) as (out & Hw). rewrite Hw in H4.
      now injection H4 as _ <-.
Qed.

(** A pass of the loop sends no request, whether it returns or raises. *)
Lemma assess_paper_requests (pmid : str) (self : AuthorSearch.t) (w : World) :
  requests (snd (AuthorSearch.assess_paper pmid self w)) = requests w.
Proof.
  unfold AuthorSearch.assess_paper, bind, lift.
  destruct (getitem (AuthorSearch.summaries self) pmid); [|reflexivity].
  destruct (getitem (AuthorSearch.abstracts self) (Some pmid)); [|reflexivity].
  destruct (PaperSummary.is_first_author _ _) as [[|]|]; try reflexivity.
  destruct (abstract_is_first_author_runs a0 (AuthorSearch.trainee self))
    as (b & Hb).
  destruct (Hb w) as (out & Hw). rewrite Hw. reflexivity.
Qed.

Lemma assess_papers_requests (ids : list str) (self : AuthorSearch.t)
    (w : World) :
  requests (snd (AuthorSearch.assess_papers ids self w)) = requests w.
Proof.
  revert self w. induction ids as [|pmid rest IH]; intros self w;
    [reflexivity|].
  cbn [AuthorSearch.assess_papers]. unfold bind.
  pose proof (assess_paper_requests pmid self w) as Hp.
  destruct (AuthorSearch.assess_paper pmid self w) as [[self1|e] w1];
    cbn [snd] in Hp.
  - now rewrite IH.
  - exact Hp.
Qed.

End LoopFacts.

(** ** What the loop of assess_trainee counts *)

Section CountFacts.
Context `{RT : Runtime} (svc : Service).

(** The loop, when it returns: every listed paper had both records and an
    author in its summary, and was counted once. *)
Lemma assess_papers_inv (ids : list str) (self self' : AuthorSearch.t)
    (w w' : World) :
  AuthorSearch.assess_papers ids self w = (Ok self', w') ->
  let st := AuthorSearch.trainee_stats self in
  let st' := AuthorSearch.trainee_stats self' in
  AuthorSearch.summaries self' = AuthorSearch.summaries self
  /\ AuthorSearch.abstracts self' = AuthorSearch.abstracts self
  /\ (forall pmid, In pmid ids ->
        exists s, AuthorSearch.summaries self !! pmid = Some s
                  /\ authors (PaperSummary.data s) <> []
                  /\ is_Some (AuthorSearch.abstracts self !! Some pmid))
  /\ Stats.research_papers st' + Stats.reviews st'
     = Stats.research_papers st + Stats.reviews st + Z.of_nat (length ids)
  /\ Stats.research_papers st <= Stats.research_papers st'
  /\ Stats.reviews st <= Stats.reviews st'
  /\ 0 <= Stats.first_author_research_papers st'
          - Stats.first_author_research_papers st
       <= Stats.research_papers st' - Stats.research_papers st
  /\ 0 <= Stats.first_author_reviews st' - Stats.first_author_reviews st
       <= Stats.reviews st' - Stats.reviews st
  /\ (exists added,
        Stats.first_author_journals st'
        = Stats.first_author_journals st ++ added
        /\ Z.of_nat (length added)
           = Stats.first_author_research_papers st'
             - Stats.first_author_research_papers st
        /\ Forall
             (fun j =>
                exists pmid s,
                  In pmid ids
                  /\ AuthorSearch.summaries self !! pmid = Some s
                  /\ PaperSummary.is_review s = false
                  /\ source (PaperSummary.data s) = j)
             added)
  /\ Stats.paper_count st' = Stats.paper_count st
  /\ Stats.pmids st' = Stats.pmids st
  /\ Stats.error st' = Stats.error st
  /\ (exists content,
        AuthorSearch.paper_content self'
        = AuthorSearch.paper_content self ++ content
        /\ Forall2
             (fun pmid doc =>
                exists s, AuthorSearch.summaries self !! pmid = Some s
                          /\ PaperSummary.data s = doc)
             ids content).
Proof.
  revert self w. induction ids as [|pmid rest IH]; intros self w Hrun.
  - cbn in Hrun. injection Hrun as <- <-. cbv zeta.
    repeat split; try reflexivity; try lia.
    + intros pmid [].
    + cbn [length]. lia.
    + exists []. rewrite app_nil_r. split; [reflexivity|].
      split; [cbn [length]; lia|constructor].
    + exists []. rewrite app_nil_r. split; [reflexivity|constructor].
  - cbn [AuthorSearch.assess_papers] in Hrun.
    apply bind_Ok_inv in Hrun as (self1 & w1 & Hpaper & Hrest).
    destruct (assess_paper_inv pmid self self1 w w1 Hpaper)
      as (s & a & fa & Hs & Ha & Hauth & -> & _).
    specialize (IH _ _ Hrest). cbv zeta in IH.
    destruct IH as (Hsum & Habs & Hall & Htot & Hres & Hrev & Hfar & Hfr
                    & (added & Hj & Hlen & Hadded) & Hpc & Hpm & Herr
                    & (content & Hcontent & Hdocs)).
    cbn [AuthorSearch.summaries AuthorSearch.abstracts
         AuthorSearch.trainee_stats AuthorSearch.paper_content
         AuthorSearch.append_paper_content AuthorSearch.set_trainee_stats]
      in *.
    cbv zeta. rewrite Hsum, Habs.
    set (st := AuthorSearch.trainee_stats self) in *.
    set (st' := AuthorSearch.trainee_stats self') in *.
    assert (Hstep :
      exists more,
        Stats.first_author_journals
          (Stats.count_paper st (PaperSummary.is_review s) fa
             (PaperSummary.journal_title s))
        = Stats.first_author_journals st ++ more
        /\ (more = []
            \/ more = [source (PaperSummary.data s)]
               /\ PaperSummary.is_review s = false)
        /\ Z.of_nat (length more)
           = Stats.first_author_research_papers
               (Stats.count_paper st (PaperSummary.is_review s) fa
                  (PaperSummary.journal_title s))
             - Stats.first_author_research_papers st).
    { unfold Stats.count_paper.
      destruct (PaperSummary.is_review s), fa; cbn.
      - exists []. rewrite app_nil_r.
        repeat split; [now left|cbn [length]; lia].
      - exists []. rewrite app_nil_r.
        repeat split; [now left|cbn [length]; lia].
      - exists [source (PaperSummary.data s)].
        repeat split; [right; now split|cbn [length]; lia].
      - exists []. rewrite app_nil_r.
        repeat split; [now left|cbn [length]; lia]. }
    destruct Hstep as (more & Hmore & Hcase & Hmlen).
    assert (Hnum :
      let st1 := Stats.count_paper st (PaperSummary.is_review s) fa
                   (PaperSummary.journal_title s) in
      Stats.research_papers st1 + Stats.reviews st1
      = Stats.research_papers st + Stats.reviews st + 1
      /\ Stats.research_papers st <= Stats.research_papers st1
      /\ Stats.reviews st <= Stats.reviews st1
      /\ 0 <= Stats.first_author_research_papers st1
              - Stats.first_author_research_papers st
           <= Stats.research_papers st1 - Stats.research_papers st
      /\ 0 <= Stats.first_author_reviews st1 - Stats.first_author_reviews st
           <= Stats.reviews st1 - Stats.reviews st
      /\ Stats.paper_count st1 = Stats.paper_count st
      /\ Stats.pmids st1 = Stats.pmids st
      /\ Stats.error st1 = Stats.error st).
    { unfold Stats.count_paper.
      destruct (PaperSummary.is_review s), fa; cbn; repeat split; lia. }
    cbv zeta in Hnum.
    destruct Hnum as (N1 & N2 & N3 & N4 & N5 & N6 & N7 & N8).
    repeat split; try lia; try congruence.
    + intros k [<-|Hk]; [|now apply Hall].
      exists s. repeat split; [exact Hs|exact Hauth|]. rewrite Ha. eauto.
    + cbn [length]. lia.
    + exists (more ++ added). split; [|split].
      * rewrite Hj, Hmore. now rewrite app_assoc.
      * rewrite length_app. lia.
      * apply Forall_app. split.
        -- destruct Hcase as [->|[-> Hrv]]; constructor; [|constructor].
           exists pmid, s. repeat split; auto. now left.
        -- eapply Forall_impl; [exact Hadded|].
           intros j (k & s' & Hk & Hs' & Hrv & Hsrc).
           exists k, s'. repeat split; auto. now right.
    + exists (PaperSummary.data s :: content). split.
      * rewrite Hcontent. now rewrite <- app_assoc.
      * constructor; [|exact Hdocs]. now exists s.
Qed.

End CountFacts.

Section AssessCounts.
Context `{RT : Runtime} (svc : Service).

(** X15. What [assess_trainee] has counted when it returns without an
    error tag, for a newly constructed [AuthorSearch]. Every uid of the
    ESUMMARY answer was counted once, as a review or as a research paper,
    so the two counters add up to the number of uids (not to
    [paper_count], which is the count of the search). The first-author
    counters stay within their counters. There is one first-author journal
    for each first-author research paper, each the source of a listed
    document that is no review. The paper content holds the documents of
    the uids, in their order. Three requests were sent. *)
Theorem assess_trainee_counts (row : Row) (with_initial : bool)
    (w0 w w' : World) (self self' : AuthorSearch.t) (term : str)
    (stats : Stats.t)
    (Hinit : AuthorSearch.__init__ row with_initial w0 = (Ok self, w))
    (Hterm : AuthorSearch.build_search_term self = Ok term)
    (Hrun : AuthorSearch.assess_trainee svc self w = (Ok (stats, self'), w'))
    (Hnoerr : Stats.error stats = None) :
  let found := esearchresult (esearch svc term) in
  let summaries_json := esummary svc (webenv found) (querykey found) in
  AuthorSearch.trainee_stats self' = stats
  /\ (exists n, py_int (count found) = Ok n
                /\ n <> 0 /\ n <= TOO_MANY_PAPERS)
  /\ Stats.paper_count stats = Some (count found)
  /\ Stats.pmids stats = Some (idlist found)
  /\ Stats.research_papers stats + Stats.reviews stats
     = Z.of_nat (length (uids summaries_json))
  /\ 0 <= Stats.first_author_research_papers stats
       <= Stats.research_papers stats
  /\ 0 <= Stats.first_author_reviews stats <= Stats.reviews stats
  /\ Z.of_nat (length (Stats.first_author_journals stats))
     = Stats.first_author_research_papers stats
  /\ Forall
       (fun j =>
          exists pmid doc,
            In pmid (uids summaries_json)
            /\ docs summaries_json !! pmid = Some doc
            /\ ~ In (u "Review") (pubtype doc)
            /\ source doc = j)
       (Stats.first_author_journals stats)
  /\ Forall2 (fun pmid doc => docs summaries_json !! pmid = Some doc)
       (uids summaries_json) (AuthorSearch.paper_content self')
  /\ requests w'
     = requests w0
       ++ [ESEARCH term; ESUMMARY (webenv found) (querykey found);
           EFETCH (webenv found) (querykey found)].
Proof.
  intros found summaries_json.
  destruct (init_fresh _ _ _ _ _ Hinit) as (Hst & Habs & Hsum & Hpc & Hreq).
  destruct (search_Ok svc self w term Hterm) as (w1 & Hsearch & Hreq1).
  unfold AuthorSearch.assess_trainee in Hrun.
  rewrite (bind_Ok _ _ _ _ _ Hsearch) in Hrun. cbn beta iota in Hrun.
  erewrite bind_lift_Ok in Hrun by reflexivity. cbv zeta in Hrun.
  erewrite bind_lift_Ok in Hrun by reflexivity.
  apply bind_Ok_inv in Hrun as (n & w2 & Hn & Hrun).
  apply lift_Ok_inv in Hn as [Hn ->]. fold found in Hn, Hrun.
  destruct (Z.eqb_spec n 0) as [Hz|Hnz].
  { unfold ret in Hrun. injection Hrun as <- _ _. discriminate. }
  erewrite bind_lift_Ok in Hrun by reflexivity.
  rewrite (bind_lift_Ok _ _ _ _ Hn) in Hrun.
  destruct (Z.ltb_spec TOO_MANY_PAPERS n) as [Hmany|Hle].
  { unfold ret in Hrun. injection Hrun as <- _ _. discriminate. }
  apply bind_Ok_inv in Hrun as (self3 & w3 & Hf1 & Hrun).
  apply fetch_summaries_inv in Hf1
    as (found1 & stored & Hfound1 & Hstored & -> & Hreq3).
  cbn in Hfound1. injection Hfound1 as <-.
  fold found summaries_json in Hstored, Hreq3, Hrun.
  cbn [AuthorSearch.summaries AuthorSearch.set_trainee_stats
       AuthorSearch.set_search_results] in Hstored.
  rewrite Hsum in Hstored.
  apply bind_Ok_inv in Hrun as (self4 & w4 & Hf2 & Hrun).
  apply fetch_abstracts_inv in Hf2
    as (found2 & stored2 & Hfound2 & _ & -> & Hreq4).
  cbn in Hfound2. injection Hfound2 as <-. fold found in Hreq4.
  erewrite bind_lift_Ok in Hrun by reflexivity.
  apply bind_Ok_inv in Hrun as (self5 & w5 & Hloop & Hrun).
  unfold ret in Hrun. injection Hrun as <- <- <-.
  match type of Hloop with
  | AuthorSearch.assess_papers ?ids ?s ?ww = _ =>
      pose proof (assess_papers_requests ids s ww) as Hreq5
  end.
  rewrite Hloop in Hreq5. cbn [snd] in Hreq5.
  apply assess_papers_inv in Hloop. cbv zeta in Hloop.
  destruct Hloop as (_ & _ & _ & Htot & _ & _ & Hfar & Hfr
                     & (added & Hj & Hlen & Hadded) & Hcnt & Hpm & Herr
                     & (content & Hcontent & Hdocs)).
  cbn [AuthorSearch.summaries AuthorSearch.abstracts
       AuthorSearch.trainee_stats AuthorSearch.paper_content
       AuthorSearch.set_abstracts AuthorSearch.set_summaries
       AuthorSearch.set_trainee_stats AuthorSearch.set_search_results
       Stats.set_search Stats.research_papers Stats.reviews
       Stats.first_author_research_papers Stats.first_author_reviews
       Stats.first_author_journals Stats.paper_count Stats.pmids
       Stats.error] in *.
  rewrite Hst in *. rewrite Hpc in *.
  cbn [EMPTY_TRAINEE_STATS Stats.research_papers Stats.reviews
       Stats.first_author_research_papers Stats.first_author_reviews
       Stats.first_author_journals app] in *.
  assert (Hlook : forall pmid s,
            In pmid (uids summaries_json) -> stored !! pmid = Some s ->
            exists doc, docs summaries_json !! pmid = Some doc
                        /\ s = {| PaperSummary.pmid := pmid;
                                  PaperSummary.data := doc |}).
  { intros pmid s Hin Hs.
    destruct (store_summaries_Ok summaries_json (uids summaries_json) ∅
                (store_summaries_inv _ _ _ _ Hstored))
      as (stored' & Hrun' & Hin' & _).
    assert (stored' = stored) as -> by congruence.
    destruct (store_summaries_inv _ _ _ _ Hstored pmid Hin) as [doc Hdoc].
    exists doc. split; [exact Hdoc|].
    rewrite (Hin' pmid doc Hin Hdoc) in Hs. congruence. }
  split; [reflexivity|].
  split; [exists n; repeat split; assumption|].
  split; [exact Hcnt|]. split; [exact Hpm|].
  split; [lia|]. split; [lia|]. split; [lia|].
  split; [rewrite Hj; lia|].
  split.
  { rewrite Hj. eapply Forall_impl; [exact Hadded|].
    intros j (pmid & s & Hin & Hs & Hrv & Hsrc).
    destruct (Hlook pmid s Hin Hs) as (doc & Hdoc & ->).
    exists pmid, doc. repeat split; try assumption.
    unfold PaperSummary.is_review in Hrv. cbn in Hrv.
    apply bool_decide_eq_false in Hrv.
    intros H. apply Hrv. now apply list_elem_of_In. }
  split.
  { rewrite Hcontent. clear Hcontent.
    assert (Hsub : forall pmid, In pmid (uids summaries_json) ->
                                In pmid (uids summaries_json)) by auto.
    revert Hsub Hdocs.
    generalize (uids summaries_json) at 1 3 4 as ids.
    intros ids Hsub Hdocs. induction Hdocs as [|pmid doc ids' c' (s & Hs & <-) _ IH].
    - constructor.
    - constructor.
      + destruct (Hlook pmid s (Hsub pmid (or_introl eq_refl)) Hs)
          as (doc & Hdoc & ->). exact Hdoc.
      + apply IH. intros k Hk. apply Hsub. now right. }
  rewrite Hreq5, Hreq4, Hreq3, Hreq1, Hreq, <- !app_assoc. reflexivity.
Qed.

End AssessCounts.

Lemma assess_trainee_counts_witness :
  exists (stats : Stats.t) (self' : AuthorSearch.t) (w' : World),
    AuthorSearch.assess_trainee (RT := Fragment.runtime)
      (Sample.service "1") Sample.huxlin_search Sample.huxlin_world
    = (Ok (stats, self'), w')
    /\ Stats.research_papers stats + Stats.reviews stats = 1
    /\ Z.of_nat (length (Stats.first_author_journals stats))
       = Stats.first_author_research_papers stats.
Proof.
  destruct (AuthorSearch.assess_trainee (RT := Fragment.runtime)
              (Sample.service "1") Sample.huxlin_search Sample.huxlin_world)
    as [[[stats self']|e] w'] eqn:Hrun.
  2:{ vm_compute in Hrun. discriminate. }
  assert (Herr : Stats.error stats = None).
  { vm_compute in Hrun. injection Hrun as <- _ _. reflexivity. }
  destruct (assess_trainee_counts (RT := Fragment.runtime)
              (Sample.service "1") Sample.huxlin_row WITH_INITIAL
              Sample.world Sample.huxlin_world w' Sample.huxlin_search self'
              Sample.huxlin_term stats eq_refl eq_refl Hrun Herr)
    as (_ & _ & _ & _ & Htot & _ & _ & Hj & _).
  exists stats, self', w'. repeat split; assumption.
Defined.

Section RequestFacts.
Context `{RT : Runtime} (svc : Service).

(** X16. The requests of [assess_trainee], whether it returns or raises.
    If the search term cannot be built, nothing is sent. Otherwise the
    search is sent first and once, and after it at most one ESUMMARY and
    then at most one EFETCH, both with the cursor of that search: no
    request is sent per paper, and none twice. *)
Theorem assess_trainee_requests (self : AuthorSearch.t) (w : World) :
  (forall e,
     AuthorSearch.build_search_term self = Raise e ->
     AuthorSearch.assess_trainee svc self w = (Raise e, w))
  /\ (forall term,
        AuthorSearch.build_search_term self = Ok term ->
        let found := esearchresult (esearch svc term) in
        exists sent,
          requests (snd (AuthorSearch.assess_trainee svc self w))
          = requests w ++ ESEARCH term :: sent
          /\ (sent = []
              \/ sent = [ESUMMARY (webenv found) (querykey found)]
              \/ sent = [ESUMMARY (webenv found) (querykey found);
                         EFETCH (webenv found) (querykey found)])).
Proof.
  split.
  - intros e He. unfold AuthorSearch.assess_trainee.
    now rewrite (bind_Raise _ _ _ _ _ (search_Raise svc self w e He)).
  - intros term Hterm found.
    destruct (search_Ok svc self w term Hterm) as (w1 & Hsearch & Hreq1).
    unfold AuthorSearch.assess_trainee.
    rewrite (bind_Ok _ _ _ _ _ Hsearch). cbn beta iota.
    erewrite bind_lift_Ok by reflexivity. cbv zeta.
    erewrite bind_lift_Ok by reflexivity.
    match goal with
    | |- context [lift (py_int ?x)] =>
        destruct (py_int x) as [n|e] eqn:Hn
    end.
    2:{ exists []. split; [|now left].
        rewrite (bind_Raise _ _ w1 w1 e) by reflexivity.
        exact Hreq1. }
    rewrite (bind_lift_Ok _ _ _ n) by reflexivity.
    destruct (n =? 0).
    { exists []. split; [exact Hreq1|now left]. }
    erewrite bind_lift_Ok by reflexivity.
    erewrite bind_lift_Ok by exact Hn.
    destruct (TOO_MANY_PAPERS <? n).
    { exists []. split; [exact Hreq1|now left]. }
    match goal with
    | |- context [AuthorSearch.fetch_summaries svc ?s] =>
        set (self2 := s)
    end.
    pose proof (fetch_summaries_requests svc self2 w1 found eq_refl) as Hr3.
    destruct (AuthorSearch.fetch_summaries svc self2 w1)
      as [[self3|e] w3] eqn:Hf1; cbn [snd] in Hr3.
    2:{ exists [ESUMMARY (webenv found) (querykey found)].
        split; [|right; now left].
        rewrite (bind_Raise _ _ _ _ _ Hf1). cbn [snd].
        rewrite Hr3, Hreq1, <- app_assoc. reflexivity. }
    rewrite (bind_Ok _ _ _ _ _ Hf1).
    apply fetch_summaries_inv in Hf1
      as (found1 & stored & Hfound1 & _ & -> & _).
    cbn in Hfound1. injection Hfound1 as <-.
    exists [ESUMMARY (webenv found) (querykey found);
            EFETCH (webenv found) (querykey found)].
    split; [|right; now right].
    match goal with
    | |- context [AuthorSearch.fetch_abstracts svc ?s] =>
        set (self3 := s)
    end.
    pose proof (fetch_abstracts_requests svc self3 w3 found eq_refl) as Hr4.
    destruct (AuthorSearch.fetch_abstracts svc self3 w3)
      as [[self4|e] w4] eqn:Hf2; cbn [snd] in Hr4.
    2:{ rewrite (bind_Raise _ _ _ _ _ Hf2). cbn [snd].
        rewrite Hr4, Hr3, Hreq1, <- !app_assoc. reflexivity. }
    rewrite (bind_Ok _ _ _ _ _ Hf2).
    apply fetch_abstracts_inv in Hf2 as (found2 & stored2 & _ & _ & -> & _).
    erewrite bind_lift_Ok by reflexivity.
    match goal with
    | |- context [AuthorSearch.assess_papers ?ids ?s] =>
        pose proof (assess_papers_requests ids s w4) as Hr5;
        unfold bind at 1;
        destruct (AuthorSearch.assess_papers ids s w4) as [[self5|e] w5]
    end; unfold ret; cbn [snd] in *;
      rewrite Hr5, Hr4, Hr3, Hreq1, <- !app_assoc; reflexivity.
Qed.

(** X17. A newly constructed [AuthorSearch] cannot fetch before it has
    searched: both fetches raise [AttributeError] and send no request. *)
Theorem fetch_before_search (row : Row) (with_initial : bool)
    (w0 w : World) (self : AuthorSearch.t) (w1 : World)
    (Hinit : AuthorSearch.__init__ row with_initial w0 = (Ok self, w)) :
  AuthorSearch.fetch_summaries svc self w1 = (Raise AttributeError, w1)
  /\ AuthorSearch.fetch_abstracts svc self w1 = (Raise AttributeError, w1).
Proof.
  assert (Hnone : AuthorSearch.search_results self = None).
  { revert Hinit.
    unfold AuthorSearch.__init__, bind, print, lift, ret. cbn.
    destruct (AuthorSearch._parse_trainee_mentor row with_initial)
      as [[[who m] loc]|e]; [|discriminate].
    now intros [= <- _]. }
  unfold AuthorSearch.fetch_summaries, AuthorSearch.fetch_abstracts,
    AuthorSearch._params_with_history.
  rewrite Hnone. split; reflexivity.
Qed.

End RequestFacts.

Lemma fetch_before_search_witness :
  AuthorSearch.fetch_summaries (Sample.service "1") Sample.huxlin_search
    Sample.huxlin_world = (Raise AttributeError, Sample.huxlin_world)
  /\ AuthorSearch.fetch_abstracts (Sample.service "1") Sample.huxlin_search
       Sample.huxlin_world = (Raise AttributeError, Sample.huxlin_world).
Proof.
  apply (fetch_before_search (Sample.service "1") Sample.huxlin_row
           WITH_INITIAL Sample.world Sample.huxlin_world
           Sample.huxlin_search Sample.huxlin_world).
  reflexivity.
Defined.

Section MissingRecord.
Context `{RT : Runtime} (svc : Service).

(** X18. When the count of the search is within bounds and some uid of
    the ESUMMARY answer has no full record in the EFETCH answer,
    [assess_trainee] on a newly constructed [AuthorSearch] does not
    return: it raises, and the statistics of the papers counted before
    are lost with it. *)
Theorem assess_trainee_missing_record (row : Row) (with_initial : bool)
    (w0 w : World) (self : AuthorSearch.t) (term pmid : str) (n : Z)
    (stored : gmap (option str) PaperAbstract.t) :
  let found := esearchresult (esearch svc term) in
  let summaries_json := esummary svc (webenv found) (querykey found) in
  let abstracts_xml := efetch svc (webenv found) (querykey found) in
  forall
    (Hinit : AuthorSearch.__init__ row with_initial w0 = (Ok self, w))
    (Hterm : AuthorSearch.build_search_term self = Ok term)
    (Hcount : py_int (count found) = Ok n)
    (Hrange : n <> 0 /\ n <= TOO_MANY_PAPERS)
    (Hlisted : In pmid (uids summaries_json))
    (Hstored :
       AuthorSearch.store_abstracts
         (findall (u "MedlineCitation") abstracts_xml) ∅ = Ok stored)
    (Hmissing : stored !! Some pmid = None),
  exists (e : exn) (w' : World),
    AuthorSearch.assess_trainee svc self w = (Raise e, w').
Proof.
  intros found summaries_json abstracts_xml
    Hinit Hterm Hcount [Hnz Hle] Hlisted Hstored Hmissing.
  destruct (AuthorSearch.assess_trainee svc self w)
    as [[[stats self']|e] w'] eqn:Hrun; [exfalso|now exists e, w'].
  destruct (init_fresh _ _ _ _ _ Hinit) as (_ & Habs & _ & _ & _).
  destruct (search_Ok svc self w term Hterm) as (w1 & Hsearch & Hreq1).
  unfold AuthorSearch.assess_trainee in Hrun.
  rewrite (bind_Ok _ _ _ _ _ Hsearch) in Hrun. cbn beta iota in Hrun.
  erewrite bind_lift_Ok in Hrun by reflexivity. cbv zeta in Hrun.
  erewrite bind_lift_Ok in Hrun by reflexivity.
  erewrite bind_lift_Ok in Hrun by exact Hcount.
  destruct (Z.eqb_spec n 0) as [Hz|_]; [contradiction|].
  erewrite bind_lift_Ok in Hrun by reflexivity.
  erewrite bind_lift_Ok in Hrun by exact Hcount.
  destruct (Z.ltb_spec TOO_MANY_PAPERS n) as [Hmany|_]; [lia|].
  apply bind_Ok_inv in Hrun as (self3 & w3 & Hf1 & Hrun).
  apply fetch_summaries_inv in Hf1
    as (found1 & stored1 & Hfound1 & _ & -> & _).
  cbn in Hfound1. injection Hfound1 as <-.
  apply bind_Ok_inv in Hrun as (self4 & w4 & Hf2 & Hrun).
  apply fetch_abstracts_inv in Hf2
    as (found2 & stored2 & Hfound2 & Hstored2 & -> & _).
  cbn in Hfound2. injection Hfound2 as <-.
  cbn [AuthorSearch.abstracts AuthorSearch.set_summaries
       AuthorSearch.set_trainee_stats AuthorSearch.set_search_results]
    in Hstored2.
  rewrite Habs in Hstored2. fold found abstracts_xml in Hstored2.
  assert (stored2 = stored) as -> by congruence.
  erewrite bind_lift_Ok in Hrun by reflexivity.
  apply bind_Ok_inv in Hrun as (self5 & w5 & Hloop & _).
  apply assess_papers_inv in Hloop. cbv zeta in Hloop.
  destruct Hloop as (_ & _ & Hall & _).
  destruct (Hall pmid Hlisted) as (s & _ & _ & [a Ha]).
  cbn in Ha. congruence.
Qed.

End MissingRecord.

(** The summary lists a second uid that EFETCH does not deliver. *)
Lemma assess_trainee_missing_record_witness :
  let svc :=
    {| esearch := esearch (Sample.service "2");
       esummary := fun _ _ =>
         {| uids := [u "101"; u "202"];
            docs :=
              {[ u "101" := PaperSummary.data Sample.huxlin_summary;
                 u "202" := PaperSummary.data Sample.huxlin_summary ]} |};
       efetch := efetch (Sample.service "2") |} in
  exists (e : exn) (w' : World),
    AuthorSearch.assess_trainee (RT := Fragment.runtime) svc
      Sample.huxlin_search Sample.huxlin_world = (Raise e, w').
Proof.
  intros svc.
  assert (Hmissing :
    ({[ Some (u "101") := Sample.huxlin ]}
       : gmap (option str) PaperAbstract.t) !! Some (u "202") = None).
  { apply lookup_singleton_ne. vm_compute. discriminate. }
  apply (assess_trainee_missing_record (RT := Fragment.runtime) svc
           Sample.huxlin_row WITH_INITIAL Sample.world Sample.huxlin_world
           Sample.huxlin_search Sample.huxlin_term (u "202") 2
           {[ Some (u "101") := Sample.huxlin ]}
           eq_refl eq_refl eq_refl);
    [ split; [discriminate|vm_compute; discriminate]
    | right; left; reflexivity
    | reflexivity
    | exact Hmissing ].
Defined.

(** ** The loop of main *)

Section MainFacts.
Context `{RT : Runtime} (svc : Service).

(** X19. When the loop of [main] returns, it has appended one row of
    statistics for each row of the roster, in the order of the roster,
    each the result of assessing that row, and has only extended the paper
    content. *)
Theorem main_loop_returns (rows : list Row) (trainee_stats : list Stats.t)
    (paper_content : list SummaryData) (w w' : World)
    (all_stats : list Stats.t) (all_content : list SummaryData)
    (Hrun : main_loop svc rows trainee_stats paper_content w
            = (Ok (all_stats, all_content), w')) :
  exists (new_stats : list Stats.t) (new_content : list SummaryData),
    all_stats = trainee_stats ++ new_stats
    /\ all_content = paper_content ++ new_content
    /\ length new_stats = length rows
    /\ Forall2
         (fun row stats =>
            exists wa wb content,
              main_row svc row wa = (Ok (stats, content), wb))
         rows new_stats.
Proof.
  revert trainee_stats paper_content w Hrun.
  induction rows as [|row rest IH]; intros st pc w Hrun.
  - cbn in Hrun. injection Hrun as <- <- _.
    exists [], []. rewrite !app_nil_r. repeat split. constructor.
  - cbn [main_loop] in Hrun.
    apply bind_Ok_inv in Hrun as ([stats content] & w1 & Hrow & Hrest).
    destruct (IH _ _ _ Hrest) as (ns & nc & -> & -> & Hlen & Hall).
    exists (stats :: ns), (content ++ nc).
    rewrite <- !app_assoc. repeat split.
    + cbn [length]. now rewrite Hlen.
    + constructor; [|exact Hall]. now exists w, w1, content.
Qed.

(** X20. An exception on one row ends the loop of [main]: when the rows
    before it were assessed and assessing the row raises, the loop raises
    the same exception in the same world, so no row after it is searched
    and no statistics are returned, those of the rows before included. *)
Theorem main_loop_aborts (done rest : list Row) (row : Row)
    (trainee_stats : list Stats.t) (paper_content : list SummaryData)
    (w w1 w2 : World) (stats1 : list Stats.t) (content1 : list SummaryData)
    (e : exn)
    (Hdone : main_loop svc done trainee_stats paper_content w
             = (Ok (stats1, content1), w1))
    (Hrow : main_row svc row w1 = (Raise e, w2)) :
  main_loop svc (done ++ row :: rest) trainee_stats paper_content w
  = (Raise e, w2).
Proof.
  revert trainee_stats paper_content w Hdone.
  induction done as [|r done IH]; intros st pc w Hdone.
  - cbn in Hdone. injection Hdone as _ _ <-.
    cbn [app main_loop]. now rewrite (bind_Raise _ _ _ _ _ Hrow).
  - cbn [app main_loop] in *.
    apply bind_Ok_inv in Hdone as ([stats content] & w0 & Hr & Hdone).
    rewrite (bind_Ok _ _ _ _ _ Hr). now apply IH.
Qed.

End MainFacts.

Section SummaryPrefix.
Context `{RT : Runtime}.

(** X21. [is_first_author] on a summary whose first author is [first].
    When the name of the trainee, as written, is the beginning of the
    display name, the answer is [True] whatever follows it in the display
    name. When the display name is no longer than the name of the trainee,
    nothing is cut and the answer is [names_match] of the two. *)
Theorem summary_is_first_author_prefix (self : PaperSummary.t)
    (author : str) (first : AuthorEntry) (others : list AuthorEntry)
    (Hauthors : authors (PaperSummary.data self) = first :: others) :
  (forall extra, name first = author ++ extra ->
                 PaperSummary.is_first_author self author = Ok true)
  /\ ((length (name first) <= length author)%nat ->
      PaperSummary.is_first_author self author
      = Ok (names_match (name first) author)).
Proof.
  unfold PaperSummary.is_first_author, first_item, item.
  rewrite Hauthors. cbn [lookup list_lookup result_bind]. split.
  - intros extra ->. rewrite take_app_length.
    f_equal. now apply bool_decide_eq_true.
  - intros Hlen. now rewrite take_ge by exact Hlen.
Qed.

End SummaryPrefix.

(** ** The further properties on the sample records *)

Lemma fetch_summaries_outcome_witness :
  let searched :=
    AuthorSearch.set_search_results Sample.huxlin_search
      (esearchresult (esearch (Sample.service "1") Sample.huxlin_term)) in
  exists self',
    AuthorSearch.fetch_summaries (Sample.service "1") searched Sample.world
    = (Ok self',
       {| requests := [ESUMMARY (u "MCID_1") (u "1")]; stdout := [] |})
    /\ AuthorSearch.pmids self' = Some [u "101"]
    /\ AuthorSearch.summaries self' !! u "101" = Some Sample.huxlin_summary.
Proof.
  intros searched.
  destruct (fetch_summaries_outcome (Sample.service "1") searched
              Sample.world
              (esearchresult (esearch (Sample.service "1") Sample.huxlin_term))
              eq_refl) as [Hok _].
  destruct Hok as (self' & Hrun & Hp & Hin & _).
  { intros id [<-|[]]. exists (PaperSummary.data Sample.huxlin_summary).
    apply lookup_singleton_eq. }
  exists self'. split; [exact Hrun|]. split; [exact Hp|].
  apply (Hin (u "101") (PaperSummary.data Sample.huxlin_summary));
    [now left|apply lookup_singleton_eq].
Defined.

Lemma fetch_abstracts_outcome_witness :
  let searched :=
    AuthorSearch.set_search_results Sample.huxlin_search
      (esearchresult (esearch (Sample.service "1") Sample.huxlin_term)) in
  exists self',
    AuthorSearch.fetch_abstracts (Sample.service "1") searched Sample.world
    = (Ok self',
       {| requests := [EFETCH (u "MCID_1") (u "1")]; stdout := [] |})
    /\ AuthorSearch.abstracts self' !! Some (u "101") = Some Sample.huxlin.
Proof.
  intros searched.
  destruct (fetch_abstracts_outcome (Sample.service "1") searched
              Sample.world
              (esearchresult (esearch (Sample.service "1") Sample.huxlin_term))
              eq_refl) as [Hok _].
  destruct Hok as (self' & Hrun & Hin & _).
  { intros c [<-|[]]. vm_compute. eauto. }
  exists self'. split; [exact Hrun|].
  apply (Hin [] (PaperAbstract.data Sample.huxlin) []
           (Sample.leaf "PMID" "101"));
    [reflexivity|reflexivity|intros c' el' []].
Defined.

Lemma main_loop_returns_witness :
  exists (all_stats : list Stats.t) (all_content : list SummaryData)
         (w' : World),
    main_loop (RT := Fragment.runtime) (Sample.service "1")
      [Sample.cavanaugh_row; Sample.huxlin_row] [] [] Sample.world
    = (Ok (all_stats, all_content), w')
    /\ length all_stats = 2%nat.
Proof.
  destruct (main_loop (RT := Fragment.runtime) (Sample.service "1")
              [Sample.cavanaugh_row; Sample.huxlin_row] [] [] Sample.world)
    as [[[all_stats all_content]|e] w'] eqn:Hrun.
  2:{ vm_compute in Hrun. discriminate. }
  destruct (main_loop_returns (RT := Fragment.runtime) (Sample.service "1")
              _ _ _ _ _ _ _ Hrun) as (ns & nc & -> & _ & Hlen & _).
  exists ns, all_content, w'. split; [reflexivity|exact Hlen].
Defined.

(** The second row has a blank first name: its constructor raises
    [IndexError], and the third row is never searched. *)
Lemma main_loop_aborts_witness :
  exists w2 : World,
    main_loop (RT := Fragment.runtime) (Sample.service "1")
      ([Sample.huxlin_row]
       ++ Sample.row "Joyce" " " (Some NaN) (Some NaN)
       :: [Sample.cavanaugh_row]) [] [] Sample.world
    = (Raise IndexError, w2)
    /\ length (requests w2) = 3%nat.
Proof.
  destruct (main_loop (RT := Fragment.runtime) (Sample.service "1")
              [Sample.huxlin_row] [] [] Sample.world)
    as [[[stats1 content1]|e] w1] eqn:Hdone.
  2:{ vm_compute in Hdone. discriminate. }
  eexists. split.
  - apply (main_loop_aborts (RT := Fragment.runtime) (Sample.service "1")
             [Sample.huxlin_row] [Sample.cavanaugh_row]
             (Sample.row "Joyce" " " (Some NaN) (Some NaN)) [] []
             Sample.world w1 _ stats1 content1 IndexError Hdone).
    reflexivity.
  - vm_compute in Hdone. injection Hdone as _ _ <-. reflexivity.
Defined.

Lemma summary_is_first_author_prefix_witness :
  (forall extra,
     u "Huxlin KR" = u "Huxlin K" ++ extra ->
     PaperSummary.is_first_author (RT := Fragment.runtime)
       Sample.huxlin_summary (u "Huxlin K") = Ok true)
  /\ ((length (u "Huxlin KR") <= length (u "Huxlin K"))%nat ->
      PaperSummary.is_first_author (RT := Fragment.runtime)
        Sample.huxlin_summary (u "Huxlin K")
      = Ok (names_match (RT := Fragment.runtime)
              (u "Huxlin KR") (u "Huxlin K"))).
Proof.
  apply (summary_is_first_author_prefix (RT := Fragment.runtime)
           Sample.huxlin_summary (u "Huxlin K")
           {| name := u "Huxlin KR"; authtype := u "Author" |}
           [{| name := u "Cavanaugh MR"; authtype := u "Author" |}]).
  reflexivity.
Defined.
